(** * forge_sdk: the submit-then-poll client, embedded and verified

    Shallow embedding of the module [src/forge_sdk/cleint.py]: its
    classes and the two methods of [ForgeClient], as the module defines
    them.  ([forge_sdk/__init__.py] asks for them under the module name
    [client]; nothing here depends on how the module is reached.)

    Conventions of the embedding:
    - Python exceptions are values [exn] carrying their class and message;
      the class table [base] is the [class X(Y)] headers of the source.
    - Effects (environment variables, the wall clock, the network, the
      logger) act on an explicit [World].  The network is a script of
      replies consumed one per request; each reply says how long the call
      took.  When the script is used up the run is [Pending]: the call is
      still blocked, the model knows nothing more.
    - [time.time()] is read in whole time-units (the float arithmetic of the
      clock is outside the model).  Time passes in network calls, by the
      latency of the reply, and in [time.sleep d], by exactly [d]; the
      statements between them take no time.
    - The client object [self] is part of the machine state of a method
      call, so that what a call does to it can be stated.
    - A [string] is a text over the code points 0 to 255, one [ascii] a
      code point. *)

From Stdlib Require Import ZArith NArith List String Ascii Bool Lia DecimalString.
Import ListNotations.

Local Open Scope string_scope.
Local Open Scope Z_scope.

(** ** Exceptions *)

(** The classes of the source (lines 19-29) and the builtin ones that the
    operations used by the source raise.  [RequestException] stands for
    [requests.exceptions.RequestException] and its subclasses (connection
    errors, HTTP errors from [raise_for_status], undecodable bodies). *)
Inductive exn_class : Type :=
  | Exception
  | ValueError
  | LookupError
  | KeyError
  | TypeError
  | AttributeError
  | RequestException
  | ForgeError
  | ForgeTimeoutError
  | ForgeAuthError.

(** The direct base class: [class ForgeError(Exception)],
    [class ForgeTimeoutError(ForgeError)], [class ForgeAuthError(ForgeError)]. *)
Definition base (c : exn_class) : option exn_class :=
  match c with
  | Exception => None
  | ValueError => Some Exception
  | LookupError => Some Exception
  | KeyError => Some LookupError
  | TypeError => Some Exception
  | AttributeError => Some Exception
  | RequestException => Some Exception
  | ForgeError => Some Exception
  | ForgeTimeoutError => Some ForgeError
  | ForgeAuthError => Some ForgeError
  end.

Definition exn_class_eqb (c d : exn_class) : bool :=
  match c, d with
  | Exception, Exception | ValueError, ValueError | LookupError, LookupError
  | KeyError, KeyError | TypeError, TypeError | AttributeError, AttributeError
  | RequestException, RequestException | ForgeError, ForgeError
  | ForgeTimeoutError, ForgeTimeoutError | ForgeAuthError, ForgeAuthError => true
  | _, _ => false
  end.

(** [ancestor n c d]: [d] is reached from [c] in at most [n] [base] steps. *)
Fixpoint ancestor (n : nat) (c d : exn_class) : bool :=
  exn_class_eqb c d ||
  match n with
  | O => false
  | S n' => match base c with
            | Some b => ancestor n' b d
            | None => false
            end
  end.

(** [issubclass c d]; no chain of the table is longer than three steps. *)
Definition issubclass (c d : exn_class) : bool := ancestor 3 c d.

Record exn : Type := mkExn { exn_cls : exn_class; exn_msg : string }.

(** [isinstance(e, d)], what an [except d] clause tests. *)
Definition isinstance (e : exn) (d : exn_class) : bool :=
  issubclass (exn_cls e) d.

(** ** JSON values, as [response.json()] returns them *)

#[local] Set Warnings "-register-all".
Inductive json : Type :=
  | JNull
  | JBool (b : bool)
  | JNum (n : Z)
  | JStr (s : string)
  | JArr (l : list json)
  | JObj (m : list (string * json)).

(** [d.get(k, default)] on a dict held as an association list. *)
Fixpoint dict_get (k : string) (d : list (string * json)) (default : json) : json :=
  match d with
  | [] => default
  | (k', v) :: d' => if String.eqb k k' then v else dict_get k d' default
  end.

Fixpoint dict_find (k : string) (d : list (string * json)) : option json :=
  match d with
  | [] => None
  | (k', v) :: d' => if String.eqb k k' then Some v else dict_find k d'
  end.

(** ** Strings *)

Definition str_of_Z (z : Z) : string := NilZero.string_of_int (Z.to_int z).

(** [c.lower()] for one code point below 256: the capitals [A]-[Z] and,
    past 127, those of 192-222 but for the multiplication sign 215; each
    has its small letter 32 further on. *)
Definition lower_ascii (c : ascii) : ascii :=
  let n := nat_of_ascii c in
  if (Nat.leb 65 n && Nat.leb n 90
      || Nat.leb 192 n && Nat.leb n 222 && negb (Nat.eqb n 215))%bool
  then ascii_of_nat (n + 32) else c.

(** [s.lower()] *)
Fixpoint lower (s : string) : string :=
  match s with
  | EmptyString => EmptyString
  | String c s' => String (lower_ascii c) (lower s')
  end.

Fixpoint string_rev (s : string) : string :=
  match s with
  | EmptyString => EmptyString
  | String c s' => string_rev s' ++ String c EmptyString
  end.

Fixpoint lstrip_slash (s : string) : string :=
  match s with
  | String "/"%char s' => lstrip_slash s'
  | _ => s
  end.

(** [s.rstrip('/')] *)
Definition rstrip_slash (s : string) : string :=
  string_rev (lstrip_slash (string_rev s)).

Definition quote1 : ascii := ascii_of_nat 39.   (* the single quote *)
Definition quote2 : ascii := ascii_of_nat 34.   (* the double quote *)
Definition backslash : ascii := ascii_of_nat 92.

Fixpoint contains (c : ascii) (s : string) : bool :=
  match s with
  | EmptyString => false
  | String d s' => Ascii.eqb c d || contains c s'
  end.

Definition hex_digit (n : nat) : ascii :=
  nth n ["0"; "1"; "2"; "3"; "4"; "5"; "6"; "7"; "8"; "9";
         "a"; "b"; "c"; "d"; "e"; "f"]%char "0"%char.

(** The code points [repr] shows as they are: the printable ones, which
    below 256 are 32-126 and 161-255 but for the soft hyphen 173. *)
Definition printable (n : nat) : bool :=
  (Nat.leb 32 n && Nat.leb n 126 || Nat.leb 161 n && negb (Nat.eqb n 173))%bool.

(** One code point inside [repr(s)], the text being quoted with [q]. *)
Definition repr_char (q c : ascii) : string :=
  let n := nat_of_ascii c in
  if (Ascii.eqb c q || Ascii.eqb c backslash)%bool
  then String backslash (String c EmptyString)
  else if Nat.eqb n 9 then String backslash "t"
  else if Nat.eqb n 10 then String backslash "n"
  else if Nat.eqb n 13 then String backslash "r"
  else if printable n then String c EmptyString
  else String backslash
         (String "x" (String (hex_digit (n / 16))
                        (String (hex_digit (n mod 16)) EmptyString))).

Fixpoint repr_body (q : ascii) (s : string) : string :=
  match s with
  | EmptyString => EmptyString
  | String c s' => repr_char q c ++ repr_body q s'
  end.

(** [repr(s)] of a [str]: in single quotes, unless the text has a single
    quote and no double one. *)
Definition py_repr (s : string) : string :=
  let q := if (contains quote1 s && negb (contains quote2 s))%bool
           then quote2 else quote1 in
  String q (repr_body q s ++ String q EmptyString).

(** ** The world outside the program *)

Inductive NetReply : Type :=
  | NetFail (reason : string)   (* the call raises a RequestException *)
  | NetOk (body : json).        (* 2xx, [body] is what [.json()] returns *)

Record NetEvent : Type := mkNetEvent { latency : N; reply : NetReply }.

Definition headers_t : Type := list (string * string).

(** The URL [f"{prefix}/{task}"] is kept in parts. *)
Inductive NetCall : Type :=
  | HttpPost (url : string) (hdrs : headers_t) (body : json) (tmo : Z)
  | HttpGet (prefix : string) (task : json) (hdrs : headers_t) (tmo : Z).

Inductive LogEvent : Type :=
  | LogStarting (prompt : string)
  | LogStatus (status : json) (waited : Z).

Record World : Type := mkWorld {
  environ : list (string * string);
  clock : Z;
  network : list NetEvent;   (* replies still to come, next one first *)
  calls : list NetCall;      (* requests made so far, latest first *)
  logs : list LogEvent       (* lines logged so far, latest first *)
}.

(** ** A state-and-exception monad

    The state survives a raise, as it does in Python. *)

Inductive outcome (A : Type) : Type :=
  | Return (a : A)
  | Raise (e : exn)
  | Pending.
Arguments Return {A} a.
Arguments Raise {A} e.
Arguments Pending {A}.

Definition M (S A : Type) : Type := S -> outcome A * S.

Definition ret {S A} (a : A) : M S A := fun s => (Return a, s).
Definition raise {S A} (c : exn_class) (msg : string) : M S A :=
  fun s => (Raise (mkExn c msg), s).
Definition pending {S A} : M S A := fun s => (Pending, s).

Definition bind {S A B} (m : M S A) (k : A -> M S B) : M S B :=
  fun s =>
    match m s with
    | (Return a, s') => k a s'
    | (Raise e, s') => (Raise e, s')
    | (Pending, s') => (Pending, s')
    end.

Declare Scope py_scope.
Delimit Scope py_scope with py.
Notation "x <- m ;; k" := (bind m (fun x => k))
  (at level 100, m at next level, right associativity) : py_scope.
Notation "m ;; k" := (bind m (fun _ => k))
  (at level 100, right associativity) : py_scope.
Local Open Scope py_scope.

(** [try: body  except cls: handler] *)
Definition try_except {S A} (body : M S A) (cls : exn_class)
    (handler : exn -> M S A) : M S A :=
  fun s =>
    match body s with
    | (Raise e, s') => if isinstance e cls then handler e s' else (Raise e, s')
    | r => r
    end.

Definition gets {S A} (f : S -> A) : M S A := fun s => (Return (f s), s).
Definition modify {S} (f : S -> S) : M S unit := fun s => (Return tt, f s).

(** *** Primitive effects on the world *)

Definition set_clock (t : Z) (w : World) : World :=
  mkWorld (environ w) t (network w) (calls w) (logs w).
Definition set_network (n : list NetEvent) (w : World) : World :=
  mkWorld (environ w) (clock w) n (calls w) (logs w).
Definition add_call (c : NetCall) (w : World) : World :=
  mkWorld (environ w) (clock w) (network w) (c :: calls w) (logs w).
Definition add_log (l : LogEvent) (w : World) : World :=
  mkWorld (environ w) (clock w) (network w) (calls w) (l :: logs w).

Fixpoint assoc (k : string) (l : list (string * string)) : option string :=
  match l with
  | [] => None
  | (k', v) :: l' => if String.eqb k k' then Some v else assoc k l'
  end.

(** [os.getenv(name)] *)
Definition os_getenv (name : string) : M World (option string) :=
  gets (fun w => assoc name (environ w)).

(** [time.time()] *)
Definition time_time : M World Z := gets clock.


(** [time.sleep(d)]: a negative length is a [ValueError].  Lengths above
    [max_sleep] are not told apart here; what is stated of the exceptions
    of a call is stated for lengths up to it. *)
Definition time_sleep (d : Z) : M World unit :=
  if d <? 0 then raise ValueError "sleep length must be non-negative"
  else modify (fun w => set_clock (clock w + d) w).

(** [logger.info(...)] *)
Definition logger_info (l : LogEvent) : M World unit := modify (add_log l).

(** The world after request [c] got the reply [ev]: the request is on
    record, the reply is off the script and its latency has elapsed. *)
Definition exchange (c : NetCall) (ev : NetEvent) (rest : list NetEvent)
    (w : World) : World :=
  set_clock (clock w + Z.of_N (latency ev)) (set_network rest (add_call c w)).

(** One HTTP exchange followed by [raise_for_status()] and [.json()]. *)
Definition http (c : NetCall) : M World json :=
  fun w =>
    match network w with
    | [] => (Pending, add_call c w)
    | ev :: rest =>
        match reply ev with
        | NetFail reason =>
            (Raise (mkExn RequestException reason), exchange c ev rest w)
        | NetOk body => (Return body, exchange c ev rest w)
        end
    end.

(** [requests.post(url, headers=..., json=..., timeout=...)] *)
Definition requests_post (url : string) (hdrs : headers_t) (body : json)
    (tmo : Z) : M World json :=
  http (HttpPost url hdrs body tmo).

(** [requests.get(f"{prefix}/{task}", headers=..., timeout=...)] *)
Definition requests_get (prefix : string) (task : json) (hdrs : headers_t)
    (tmo : Z) : M World json :=
  http (HttpGet prefix task hdrs tmo).

(** ** The program *)

(** [class ReasoningSpeed(str, Enum)] *)
Inductive ReasoningSpeed : Type := FAST | MEDIUM | SLOW.

(** [member.value] *)
Definition speed_value (r : ReasoningSpeed) : string :=
  match r with
  | FAST => "fast"
  | MEDIUM => "medium"
  | SLOW => "slow"
  end.

(** [ReasoningSpeed(v)]: lookup of a member by value. *)
Definition ReasoningSpeed_of_value {S} (v : string) : M S ReasoningSpeed :=
  if String.eqb v "fast" then ret FAST
  else if String.eqb v "medium" then ret MEDIUM
  else if String.eqb v "slow" then ret SLOW
  else raise ValueError (py_repr v ++ " is not a valid ReasoningSpeed").

(** An argument of type [Union[ReasoningSpeed, str]].  A member of the enum
    is itself a [str] (the class mixes in [str]) whose text is its value. *)
Inductive speed_arg : Type :=
  | SpeedMember (r : ReasoningSpeed)
  | SpeedStr (s : string).

Definition speed_text (a : speed_arg) : string :=
  match a with
  | SpeedMember r => speed_value r
  | SpeedStr s => s
  end.

(** [@dataclass class ForgeResponse] *)
Record ForgeResponse : Type := mkForgeResponse {
  task_id : json;
  status : string;
  result : json;
  completion_time : Z
}.

(** [ForgeResponse.succeeded] *)
Definition succeeded (r : ForgeResponse) : bool :=
  String.eqb (status r) "succeeded".

(** [ForgeResponse.failed] *)
Definition failed (r : ForgeResponse) : bool :=
  String.eqb (status r) "failed" || String.eqb (status r) "cancelled".

(** The attributes of a [ForgeClient] object. *)
Record ForgeClient : Type := mkForgeClient {
  api_key : string;
  base_url : string;
  headers : headers_t
}.

Definition default_base_url : string := "https://forge-api.nousresearch.com/v1".

(** [ForgeClient.__init__(self, api_key=None, base_url=...)] *)
Definition ForgeClient_init (api_key : option string) (base_url : string)
    : M World ForgeClient :=
  (* self.api_key = api_key or os.getenv("FORGE_API_KEY") *)
  key <- match api_key with
         | Some k => if String.eqb k "" then os_getenv "FORGE_API_KEY"
                     else ret (Some k)
         | None => os_getenv "FORGE_API_KEY"
         end ;;
  (* if not self.api_key: raise ForgeAuthError(...) *)
  match key with
  | None =>
      raise ForgeAuthError
        "No API key provided. Set FORGE_API_KEY environment variable or pass key to constructor"
  | Some k =>
      if String.eqb k "" then
        raise ForgeAuthError
          "No API key provided. Set FORGE_API_KEY environment variable or pass key to constructor"
      else
        ret (mkForgeClient k (rstrip_slash base_url)
               [("Authorization", "Bearer " ++ k);
                ("Content-Type", "application/json")])
  end.

(** The keyword arguments of [complete], with their defaults. *)
Record CompleteArgs : Type := mkArgs {
  reasoning_speed : speed_arg;
  track : bool;
  timeout : Z;
  poll_interval : Z;
  max_retries : Z
}.

Definition default_args : CompleteArgs :=
  mkArgs (SpeedMember MEDIUM) false 300 5 5.

(** The machine state while a method of the client runs. *)
Record Machine : Type := mkMachine { self : ForgeClient; world : World }.

(** An effect on the world, run from inside a method. *)
Definition lift {A} (m : M World A) : M Machine A :=
  fun s => let (r, w) := m (world s) in (r, mkMachine (self s) w).

(** [self.attr] *)
Definition self_attr {A} (attr : ForgeClient -> A) : M Machine A :=
  gets (fun s => attr (self s)).

(** [x[k]] for a string key [k]. *)
Definition subscript {S} (x : json) (k : string) : M S json :=
  match x with
  | JObj d => match dict_find k d with
              | Some v => ret v
              | None => raise KeyError ("'" ++ k ++ "'")
              end
  | JStr _ => raise TypeError "string indices must be integers"
  | JArr _ => raise TypeError "list indices must be integers or slices, not str"
  | _ => raise TypeError "object is not subscriptable"
  end.

(** [x.get(k, default)]: only a dict has the method. *)
Definition py_get {S} (x : json) (k : string) (default : json) : M S json :=
  match x with
  | JObj d => ret (dict_get k d default)
  | _ => raise AttributeError "object has no attribute 'get'"
  end.

(** [status in ["succeeded", "failed", "cancelled"]], giving the string. *)
Definition terminal_status (st : json) : option string :=
  match st with
  | JStr s =>
      if String.eqb s "succeeded" || String.eqb s "failed"
         || String.eqb s "cancelled"
      then Some s else None
  | _ => None
  end.

(** How one pass through the body of the [while] ends. *)
Inductive flow : Type :=
  | Returned (r : ForgeResponse)   (* the [return] of line 154 *)
  | Next (retries : Z).            (* fall through to the loop test *)

(** Lines 141-169: the [try]/[except] inside the loop. *)
Definition poll_once (completion_url : string) (tid : json) (start_time : Z)
    (a : CompleteArgs) (retries : Z) : M Machine flow :=
  try_except
    (hdrs <- self_attr headers ;;
     result <- lift (requests_get completion_url tid hdrs 10) ;;
     metadata <- py_get result "metadata" (JObj []) ;;
     st <- py_get metadata "status" (JStr "unknown") ;;
     now <- lift time_time ;;
     let completion_time := now - start_time in
     match terminal_status st with
     | Some s => ret (Returned (mkForgeResponse tid s result completion_time))
     | None =>
         lift (logger_info (LogStatus st completion_time)) ;;
         lift (time_sleep (poll_interval a)) ;;
         ret (Next 0)
     end)
    RequestException
    (fun _ =>
       let retries := retries + 1 in
       if max_retries a <=? retries then
         raise ForgeError
           ("Polling failed after " ++ str_of_Z (max_retries a) ++ " retries")
       else
         lift (time_sleep 1) ;;
         ret (Next retries)).

(** Lines 140-171: the [while] loop and the [raise] after it.  Every pass
    that falls through has consumed one scripted reply, so [fuel] passes
    suffice when [fuel] exceeds the length of the script. *)
Fixpoint poll_loop (fuel : nat) (completion_url : string) (tid : json)
    (start_time : Z) (a : CompleteArgs) (retries : Z) : M Machine ForgeResponse :=
  match fuel with
  | O => pending
  | S fuel' =>
      now <- lift time_time ;;
      if now - start_time <? timeout a then
        f <- poll_once completion_url tid start_time a retries ;;
        match f with
        | Returned r => ret r
        | Next retries' =>
            poll_loop fuel' completion_url tid start_time a retries'
        end
      else
        raise ForgeTimeoutError
          ("Completion timed out after " ++ str_of_Z (timeout a) ++ " seconds")
  end.

(** [ForgeClient.complete(self, prompt, reasoning_speed=..., ...)] *)
Definition complete (prompt : string) (a : CompleteArgs)
    : M Machine ForgeResponse :=
  (* if isinstance(reasoning_speed, str): always so, see [speed_arg] *)
  speed <- ReasoningSpeed_of_value (lower (speed_text (reasoning_speed a))) ;;
  base <- self_attr base_url ;;
  let completion_url := base ++ "/asyncplanner/completions" in
  let payload := JObj [("prompt", JStr prompt);
                       ("reasoning_speed", JStr (speed_value speed));
                       ("track", JBool (track a))] in
  tid <- try_except
           (lift (logger_info (LogStarting prompt)) ;;
            hdrs <- self_attr headers ;;
            response <- lift (requests_post completion_url hdrs payload 10) ;;
            subscript response "task_id")
           RequestException
           (fun e => raise ForgeError
                       ("Failed to start completion: " ++ exn_msg e)) ;;
  start_time <- lift time_time ;;
  fuel <- gets (fun s => S (List.length (network (world s)))) ;;
  poll_loop fuel completion_url tid start_time a 0.


(** ** Reading the code: replies, passes and runs *)

(** [result.get("metadata", {}).get("status", "unknown")], [None] where
    one of the two receivers is not a dict. *)
Definition metadata_status (body : json) : option json :=
  match body with
  | JObj d =>
      match dict_get "metadata" d (JObj []) with
      | JObj md => Some (dict_get "status" md (JStr "unknown"))
      | _ => None
      end
  | _ => None
  end.

(** A reply that is a 2xx whose status is not one of the three terminal
    ones. *)
Definition non_terminal (ev : NetEvent) : bool :=
  match reply ev with
  | NetOk body =>
      match metadata_status body with
      | Some st => match terminal_status st with
                   | None => true
                   | Some _ => false
                   end
      | None => false
      end
  | NetFail _ => false
  end.

(** A reply that is a transport failure. *)
Definition transport_failure (ev : NetEvent) : bool :=
  match reply ev with
  | NetFail _ => true
  | NetOk _ => false
  end.

(** A reply carrying a terminal status. *)
Definition terminal (ev : NetEvent) : option string :=
  match reply ev with
  | NetOk body =>
      match metadata_status body with
      | Some st => terminal_status st
      | None => None
      end
  | NetFail _ => None
  end.


Definition on_world (f : World -> World) (s : Machine) : Machine :=
  mkMachine (self s) (f (world s)).

(** The machine after the poll of [tid] got [ev]. *)
Definition polled (url : string) (tid : json) (ev : NetEvent)
    (rest : list NetEvent) (s : Machine) : Machine :=
  on_world (exchange (HttpGet url tid (headers (self s)) 10) ev rest) s.

(** ... and after the log line and the sleep of a non-terminal pass. *)
Definition waited (st : json) (start_time d : Z) (s : Machine) : Machine :=
  on_world (fun w => set_clock (clock w + d)
                       (add_log (LogStatus st (clock w - start_time)) w)) s.

(** ... and after the log line alone. *)
Definition logged (st : json) (start_time : Z) (s : Machine) : Machine :=
  on_world (fun w => add_log (LogStatus st (clock w - start_time)) w) s.

(** ... and after the sleep of a failed pass. *)
Definition slept (d : Z) (s : Machine) : Machine :=
  on_world (fun w => set_clock (clock w + d) w) s.

Definition timeout_exn (a : CompleteArgs) : exn :=
  mkExn ForgeTimeoutError
    ("Completion timed out after " ++ str_of_Z (timeout a) ++ " seconds").

Definition retries_exn (a : CompleteArgs) : exn :=
  mkExn ForgeError
    ("Polling failed after " ++ str_of_Z (max_retries a) ++ " retries").

(** The ways one pass can go, from a machine and a value of [retries] to
    a machine and either an outcome of the whole loop ([inl]) or the value
    of [retries] for the next pass ([inr]). *)
Inductive pass (url : string) (tid : json) (start_time : Z) (a : CompleteArgs)
  : Machine -> Z -> outcome ForgeResponse + Z -> Machine -> Prop :=
  | pass_timeout s r :
      timeout a <= clock (world s) - start_time ->
      pass url tid start_time a s r (inl (Raise (timeout_exn a))) s
  | pass_pending s r :
      clock (world s) - start_time < timeout a ->
      network (world s) = [] ->
      pass url tid start_time a s r (inl Pending)
        (on_world (add_call (HttpGet url tid (headers (self s)) 10)) s)
  | pass_terminal s r ev rest st body :
      clock (world s) - start_time < timeout a ->
      network (world s) = ev :: rest ->
      terminal ev = Some st ->
      reply ev = NetOk body ->
      pass url tid start_time a s r
        (inl (Return (mkForgeResponse tid st body
                        (clock (world s) + Z.of_N (latency ev) - start_time))))
        (polled url tid ev rest s)
  | pass_malformed s r ev rest body :
      clock (world s) - start_time < timeout a ->
      network (world s) = ev :: rest ->
      reply ev = NetOk body ->
      metadata_status body = None ->
      pass url tid start_time a s r
        (inl (Raise (mkExn AttributeError "object has no attribute 'get'")))
        (polled url tid ev rest s)
  | pass_abort s r ev rest :
      clock (world s) - start_time < timeout a ->
      network (world s) = ev :: rest ->
      transport_failure ev = true ->
      max_retries a <= r + 1 ->
      pass url tid start_time a s r (inl (Raise (retries_exn a))) (polled url tid ev rest s)
  | pass_retry s r ev rest :
      clock (world s) - start_time < timeout a ->
      network (world s) = ev :: rest ->
      transport_failure ev = true ->
      r + 1 < max_retries a ->
      pass url tid start_time a s r (inr (r + 1)) (slept 1 (polled url tid ev rest s))
  | pass_sleep_error s r ev rest body st :
      clock (world s) - start_time < timeout a ->
      network (world s) = ev :: rest ->
      reply ev = NetOk body ->
      metadata_status body = Some st ->
      terminal_status st = None ->
      poll_interval a < 0 ->
      pass url tid start_time a s r
        (inl (Raise (mkExn ValueError "sleep length must be non-negative")))
        (logged st start_time (polled url tid ev rest s))
  | pass_wait s r ev rest body st :
      clock (world s) - start_time < timeout a ->
      network (world s) = ev :: rest ->
      reply ev = NetOk body ->
      metadata_status body = Some st ->
      terminal_status st = None ->
      0 <= poll_interval a ->
      pass url tid start_time a s r (inr 0)
        (waited st start_time (poll_interval a) (polled url tid ev rest s)).

Definition completion_url (s : Machine) : string :=
  base_url (self s) ++ "/asyncplanner/completions".

Definition payload (prompt : string) (sp : ReasoningSpeed) (a : CompleteArgs) : json :=
  JObj [("prompt", JStr prompt);
        ("reasoning_speed", JStr (speed_value sp));
        ("track", JBool (track a))].

(** The machine after the log line and the POST that got [ev]. *)
Definition submitted (prompt : string) (sp : ReasoningSpeed) (a : CompleteArgs)
    (ev : NetEvent) (polls : list NetEvent) (s : Machine) : Machine :=
  on_world (fun w =>
              exchange (HttpPost (completion_url s) (headers (self s))
                          (payload prompt sp a) 10)
                ev polls (add_log (LogStarting prompt) w)) s.

(** The speed argument names a member of the enumeration. *)
Definition speed_ok (a : CompleteArgs) (sp : ReasoningSpeed) : Prop :=
  lower (speed_text (reasoning_speed a)) = speed_value sp.

(** [x[k]] as a value: the item or the exception. *)
Definition item (x : json) (k : string) : exn + json :=
  match x with
  | JObj d => match dict_find k d with
              | Some v => inr v
              | None => inl (mkExn KeyError ("'" ++ k ++ "'"))
              end
  | JStr _ => inl (mkExn TypeError "string indices must be integers")
  | JArr _ =>
      inl (mkExn TypeError "list indices must be integers or slices, not str")
  | _ => inl (mkExn TypeError "object is not subscriptable")
  end.

(** The time one pass that falls through takes: the latency of the poll,
    then [time.sleep(1)] after a failure, [time.sleep(poll_interval)]
    otherwise. *)
Definition pass_time (a : CompleteArgs) (ev : NetEvent) : Z :=
  Z.of_N (latency ev) + (if transport_failure ev then 1 else poll_interval a).

Fixpoint script_time (a : CompleteArgs) (evs : list NetEvent) : Z :=
  match evs with
  | [] => 0
  | ev :: evs' => pass_time a ev + script_time a evs'
  end.

(** The value of [retries] after the passes [evs], from [r]. *)
Fixpoint counter_after (r : Z) (evs : list NetEvent) : Z :=
  match evs with
  | [] => r
  | ev :: evs' => counter_after (if transport_failure ev then r + 1 else 0) evs'
  end.

(** No pass of [evs] brings [retries] to the maximum. *)
Fixpoint within_budget (a : CompleteArgs) (r : Z) (evs : list NetEvent) : bool :=
  match evs with
  | [] => true
  | ev :: evs' =>
      if transport_failure ev
      then (r + 1 <? max_retries a) && within_budget a (r + 1) evs'
      else within_budget a 0 evs'
  end.

(** A pass that neither returns nor raises on its own account: a
    non-terminal status or a transport failure. *)
Definition quiet (ev : NetEvent) : bool :=
  non_terminal ev || transport_failure ev.

(** The sleep after each pass of [evs] is one [time.sleep] accepts: a
    pass that polled a status sleeps [poll_interval], which must not be
    negative. *)
Definition sleeps_ok (a : CompleteArgs) (evs : list NetEvent) : bool :=
  forallb (fun ev => transport_failure ev || (0 <=? poll_interval a)) evs.

(** The loop test of line 140 holds before each pass of [evs], the first
    of them begun [elapsed] after the loop started. *)
Fixpoint in_time (a : CompleteArgs) (elapsed : Z) (evs : list NetEvent) : bool :=
  match evs with
  | [] => true
  | ev :: evs' =>
      (elapsed <? timeout a) && in_time a (elapsed + pass_time a ev) evs'
  end.

(** The passes [evs], run from a counter at [r], all fall through: each
    is quiet, sleeps a valid length, and leaves the counter below the
    maximum. *)
Definition fall_through (a : CompleteArgs) (r : Z) (evs : list NetEvent) : bool :=
  forallb quiet evs && sleeps_ok a evs && within_budget a r evs.

(** The number of GET requests on record. *)
Fixpoint gets_made (cs : list NetCall) : nat :=
  match cs with
  | [] => O
  | HttpGet _ _ _ _ :: cs' => S (gets_made cs')
  | HttpPost _ _ _ _ :: cs' => gets_made cs'
  end.

(** [s'] is [s] after [n] more polls and [dt] more time, with [rest] left
    of the script. *)
Record advanced (s s' : Machine) (dt : Z) (n : nat) (rest : list NetEvent)
  : Prop := mkAdvanced {
  adv_self : self s' = self s;
  adv_clock : clock (world s') = clock (world s) + dt;
  adv_network : network (world s') = rest;
  adv_gets : gets_made (calls (world s')) = (gets_made (calls (world s)) + n)%nat
}.

Definition auth_exn : exn :=
  mkExn ForgeAuthError
    "No API key provided. Set FORGE_API_KEY environment variable or pass key to constructor".

(** The client that [__init__] builds around the key [k]. *)
Definition client_of (k url : string) : ForgeClient :=
  mkForgeClient k (rstrip_slash url)
    [("Authorization", "Bearer " ++ k); ("Content-Type", "application/json")].

(** The call gets past the submission: the speed argument names a member
    and the reply [post] to the POST is a dict whose [task_id] is [tid]. *)
Definition accepted (a : CompleteArgs) (post : NetEvent) (tid : json) : Prop :=
  (exists sp, speed_ok a sp) /\
  exists d, reply post = NetOk (JObj d) /\ dict_find "task_id" d = Some tid.

(** The polls [pre] leave the loop running: they all fall through and,
    after the last of them, the timeout has not been reached. *)
Definition keeps_polling (a : CompleteArgs) (pre : list NetEvent) : bool :=
  fall_through a 0 pre && (script_time a pre <? timeout a).

(** The nested field [metadata.status] of [body] is the string [st]. *)
Definition status_is (body : json) (st : string) : Prop :=
  exists d md,
    body = JObj d /\ dict_find "metadata" d = Some (JObj md) /\
    dict_find "status" md = Some (JStr st).


Definition terminal_statuses : list string := ["succeeded"; "failed"; "cancelled"].



(** ** Concrete inputs *)

Module Ex.
Definition client : ForgeClient := client_of "k" default_base_url.

(** A machine whose client is [client], with the clock at 100 and the
    network script [net]. *)
Definition machine (net : list NetEvent) : Machine :=
  mkMachine client (mkWorld [] 100 net [] []).

Definition post_ok (lat : N) : NetEvent :=
  mkNetEvent lat (NetOk (JObj [("task_id", JStr "t1")])).

Definition running (lat : N) : NetEvent :=
  mkNetEvent lat (NetOk (JObj [("metadata", JObj [("status", JStr "running")])])).

Definition failing (lat : N) : NetEvent := mkNetEvent lat (NetFail "timed out").

Definition hi : json :=
  JObj [("metadata", JObj [("status", JStr "succeeded")]); ("output", JStr "hi")].

Definition done (lat : N) : NetEvent := mkNetEvent lat (NetOk hi).

Definition bare (lat : N) : NetEvent := mkNetEvent lat (NetOk (JObj [])).

(** [timeout=10, poll_interval=5], the rest by default. *)
Definition short : CompleteArgs := mkArgs (SpeedMember MEDIUM) false 10 5 5.

(** [timeout=10, max_retries=1], the rest by default. *)
Definition strict : CompleteArgs := mkArgs (SpeedMember MEDIUM) false 10 5 1.

(** [reasoning_speed="turbo"], the rest by default. *)
Definition turbo : CompleteArgs := mkArgs (SpeedStr "turbo") false 300 5 5.

(** [timeout=3], the rest by default. *)
Definition brief : CompleteArgs := mkArgs (SpeedMember MEDIUM) false 3 5 5.


End Ex.

Module Ex5.
(** The submission takes 3, the one poll 2. *)
Definition start : Machine := Ex.machine [Ex.post_ok 3; Ex.done 2].

Definition resp : ForgeResponse := mkForgeResponse (JStr "t1") "succeeded" Ex.hi 2.

Definition final : Machine :=
  Eval vm_compute in snd (complete "hello" default_args start).
End Ex5.

(** ** Reading the code: strings and requests *)

(** [n] slashes. *)
Fixpoint slashes (n : nat) : string :=
  match n with
  | O => EmptyString
  | S n' => String "/"%char (slashes n')
  end.

Fixpoint last_char (s : string) : option ascii :=
  match s with
  | EmptyString => None
  | String c EmptyString => Some c
  | String _ s' => last_char s'
  end.

Definition first_char (s : string) : option ascii :=
  match s with
  | EmptyString => None
  | String c _ => Some c
  end.

(** The poll request for the task [tid] of the client of [s]. *)
Definition poll_request (s : Machine) (tid : json) : NetCall :=
  HttpGet (completion_url s) tid (headers (self s)) 10.

(** The submission request of [prompt] by the client of [s]. *)
Definition submit_request (prompt : string) (sp : ReasoningSpeed)
    (a : CompleteArgs) (s : Machine) : NetCall :=
  HttpPost (completion_url s) (headers (self s)) (payload prompt sp a) 10.

(** The arguments [a] with another speed argument. *)
Definition with_speed (x : speed_arg) (a : CompleteArgs) : CompleteArgs :=
  mkArgs x (track a) (timeout a) (poll_interval a) (max_retries a).

(** A log line of a poll that did not end the call: a status that is not
    terminal, and a time. *)
Definition status_line (l : LogEvent) : Prop :=
  exists st t, l = LogStatus st t /\ terminal_status st = None.

(** ** Concrete inputs for the further properties *)

Module ExMore.
(** [timeout=0], the rest by default. *)
Definition zero : CompleteArgs := mkArgs (SpeedMember MEDIUM) false 0 5 5.

(** A call that times out: [timeout=10, poll_interval=5], three polls
    that would all return ["running"]. *)
Definition slow_start : Machine :=
  Ex.machine [Ex.post_ok 3; Ex.running 0; Ex.running 0; Ex.running 0].

Definition slow_final : Machine :=
  Eval vm_compute in snd (complete "hello" Ex.short slow_start).
End ExMore.

(** * Proofs *)

(** Unfolding of the monadic operations down to state passing. *)
Ltac run :=
  cbv beta iota zeta delta
    [poll_once try_except bind lift self_attr gets modify ret raise pending
     time_time time_sleep logger_info requests_get requests_post http py_get
     world self polled waited slept logged on_world].

(** ** Reading the code: what a poll reply makes the loop do *)

Lemma dict_get_find k d default :
  dict_get k d default =
  match dict_find k d with Some v => v | None => default end.
Proof.
  induction d as [|[k' v] d IH]; simpl; [reflexivity|].
  destruct (String.eqb k k'); [reflexivity | exact IH].
Qed.

Section Loop.
Variables (url : string) (tid : json) (start_time : Z) (a : CompleteArgs).

Local Abbreviation loop fuel := (poll_loop fuel url tid start_time a).

Lemma loop_S fuel retries :
  loop (S fuel) retries =
  (now <- lift time_time ;;
   if now - start_time <? timeout a then
     f <- poll_once url tid start_time a retries ;;
     match f with
     | Returned r => ret r
     | Next retries' => loop fuel retries'
     end
   else raise ForgeTimeoutError (exn_msg (timeout_exn a))).
Proof. reflexivity. Qed.

(** Line 140 false: straight to line 171, the world untouched. *)
Lemma loop_timeout fuel retries s :
  timeout a <= clock (world s) - start_time ->
  loop (S fuel) retries s = (Raise (timeout_exn a), s).
Proof.
  intros H. rewrite loop_S. destruct s as [c w]. run.
  destruct (Z.ltb_spec (clock w - start_time) (timeout a)); [|reflexivity].
  cbn in H; lia.
Qed.

(** A pass whose poll returns a terminal status. *)
Lemma loop_terminal fuel retries s ev rest st :
  clock (world s) - start_time < timeout a ->
  network (world s) = ev :: rest ->
  terminal ev = Some st ->
  exists body,
    reply ev = NetOk body /\
    loop (S fuel) retries s =
    (Return (mkForgeResponse tid st body
               (clock (world s) + Z.of_N (latency ev) - start_time)),
     polled url tid ev rest s).
Proof.
  intros Ht Hn Hs. rewrite loop_S. destruct s as [c w]. cbn in Ht, Hn.
  unfold terminal in Hs. destruct (reply ev) as [|body] eqn:Hr; [discriminate|].
  exists body. split; [reflexivity|].
  unfold metadata_status in Hs.
  destruct body as [| | | | |d]; try discriminate.
  destruct (dict_get "metadata" d (JObj [])) as [| | | | |md] eqn:Hmd; try discriminate.
  run.
  destruct (Z.ltb_spec (clock w - start_time) (timeout a)); [|lia].
  rewrite Hn, Hr, Hmd, Hs. reflexivity.
Qed.

(** A pass whose poll returns any other status: log, sleep, next pass
    with the failure counter at zero. *)
Lemma loop_non_terminal fuel retries s ev rest body st :
  clock (world s) - start_time < timeout a ->
  network (world s) = ev :: rest ->
  reply ev = NetOk body ->
  metadata_status body = Some st ->
  terminal_status st = None ->
  0 <= poll_interval a ->
  loop (S fuel) retries s =
  loop fuel 0 (waited st start_time (poll_interval a) (polled url tid ev rest s)).
Proof.
  intros Ht Hn Hr Hm Hs Hp. rewrite loop_S. destruct s as [c w]. cbn in Ht, Hn.
  unfold metadata_status in Hm.
  destruct body as [| | | | |d]; try discriminate.
  destruct (dict_get "metadata" d (JObj [])) as [| | | | |md] eqn:Hmd; try discriminate.
  injection Hm as <-.
  run.
  destruct (Z.ltb_spec (clock w - start_time) (timeout a)); [|lia].
  rewrite Hn, Hr, Hmd, Hs.
  destruct (Z.ltb_spec (poll_interval a) 0); [lia | reflexivity].
Qed.

(** The same pass, whatever the poll interval: after the log line comes
    [time.sleep(poll_interval)], then the next pass with the failure
    counter at zero. *)
Lemma loop_non_terminal_sleep fuel retries s ev rest body st :
  clock (world s) - start_time < timeout a ->
  network (world s) = ev :: rest ->
  reply ev = NetOk body ->
  metadata_status body = Some st ->
  terminal_status st = None ->
  loop (S fuel) retries s =
  (lift (time_sleep (poll_interval a)) ;; loop fuel 0)
    (logged st start_time (polled url tid ev rest s)).
Proof.
  intros Ht Hn Hr Hm Hs. rewrite loop_S. destruct s as [c w]. cbn in Ht, Hn.
  unfold metadata_status in Hm.
  destruct body as [| | | | |d]; try discriminate.
  destruct (dict_get "metadata" d (JObj [])) as [| | | | |md] eqn:Hmd; try discriminate.
  injection Hm as <-.
  run.
  destruct (Z.ltb_spec (clock w - start_time) (timeout a)); [|lia].
  rewrite Hn, Hr, Hmd, Hs.
  destruct (Z.ltb_spec (poll_interval a) 0); reflexivity.
Qed.

(** The same pass when the poll interval is negative: [time.sleep]
    raises, and the [except] clause does not catch it. *)
Lemma loop_negative_interval fuel retries s ev rest body st :
  clock (world s) - start_time < timeout a ->
  network (world s) = ev :: rest ->
  reply ev = NetOk body ->
  metadata_status body = Some st ->
  terminal_status st = None ->
  poll_interval a < 0 ->
  loop (S fuel) retries s =
  (Raise (mkExn ValueError "sleep length must be non-negative"),
   logged st start_time (polled url tid ev rest s)).
Proof.
  intros Ht Hn Hr Hm Hs Hp. rewrite loop_S. destruct s as [c w]. cbn in Ht, Hn.
  unfold metadata_status in Hm.
  destruct body as [| | | | |d]; try discriminate.
  destruct (dict_get "metadata" d (JObj [])) as [| | | | |md] eqn:Hmd; try discriminate.
  injection Hm as <-.
  run.
  destruct (Z.ltb_spec (clock w - start_time) (timeout a)); [|lia].
  rewrite Hn, Hr, Hmd, Hs.
  destruct (Z.ltb_spec (poll_interval a) 0); [|lia].
  reflexivity.
Qed.

(** A pass whose poll returns a body without a usable [metadata]:
    [.get] is looked up on something that is not a dict. *)
Lemma loop_malformed fuel retries s ev rest body :
  clock (world s) - start_time < timeout a ->
  network (world s) = ev :: rest ->
  reply ev = NetOk body ->
  metadata_status body = None ->
  loop (S fuel) retries s =
  (Raise (mkExn AttributeError "object has no attribute 'get'"),
   polled url tid ev rest s).
Proof.
  intros Ht Hn Hr Hm. rewrite loop_S. destruct s as [c w]. cbn in Ht, Hn.
  unfold metadata_status in Hm. run.
  destruct (Z.ltb_spec (clock w - start_time) (timeout a)); [|lia].
  rewrite Hn, Hr.
  destruct body as [| | | | |d]; try reflexivity.
  destruct (dict_get "metadata" d (JObj [])) as [| | | | |md] eqn:Hmd;
    try reflexivity; discriminate.
Qed.

(** A pass whose poll fails in transport, below the maximum. *)
Lemma loop_failure_retry fuel retries s ev rest :
  clock (world s) - start_time < timeout a ->
  network (world s) = ev :: rest ->
  transport_failure ev = true ->
  retries + 1 < max_retries a ->
  loop (S fuel) retries s =
  loop fuel (retries + 1) (slept 1 (polled url tid ev rest s)).
Proof.
  intros Ht Hn Hf Hr. rewrite loop_S. destruct s as [c w]. cbn in Ht, Hn.
  unfold transport_failure in Hf.
  destruct (reply ev) as [reason|] eqn:He; [|discriminate].
  run.
  destruct (Z.ltb_spec (clock w - start_time) (timeout a)); [|lia].
  rewrite Hn, He. cbn.
  destruct (Z.leb_spec (max_retries a) (retries + 1)); [lia | reflexivity].
Qed.

(** A pass whose poll fails in transport and brings the counter to the
    maximum. *)
Lemma loop_failure_abort fuel retries s ev rest :
  clock (world s) - start_time < timeout a ->
  network (world s) = ev :: rest ->
  transport_failure ev = true ->
  max_retries a <= retries + 1 ->
  loop (S fuel) retries s =
  (Raise (retries_exn a), polled url tid ev rest s).
Proof.
  intros Ht Hn Hf Hr. rewrite loop_S. destruct s as [c w]. cbn in Ht, Hn.
  unfold transport_failure in Hf.
  destruct (reply ev) as [reason|] eqn:He; [|discriminate].
  run.
  destruct (Z.ltb_spec (clock w - start_time) (timeout a)); [|lia].
  rewrite Hn, He. cbn.
  destruct (Z.leb_spec (max_retries a) (retries + 1)); [reflexivity | lia].
Qed.

(** A pass that finds the script used up. *)
Lemma loop_pending fuel retries s :
  clock (world s) - start_time < timeout a ->
  network (world s) = [] ->
  loop (S fuel) retries s =
  (Pending, on_world (add_call (HttpGet url tid (headers (self s)) 10)) s).
Proof.
  intros Ht Hn. rewrite loop_S. destruct s as [c w]. cbn in Ht, Hn.
  run.
  destruct (Z.ltb_spec (clock w - start_time) (timeout a)); [|lia].
  rewrite Hn. reflexivity.
Qed.

(** What the next reply is, as the loop reads it. *)
Lemma event_cases ev :
  (exists st, terminal ev = Some st) \/
  transport_failure ev = true \/
  (exists body, reply ev = NetOk body /\ metadata_status body = None) \/
  (exists body st, reply ev = NetOk body /\ metadata_status body = Some st /\
                   terminal_status st = None).
Proof.
  unfold terminal, transport_failure.
  destruct (reply ev) as [reason|body]; [auto|].
  destruct (metadata_status body) as [st|] eqn:Em.
  - destruct (terminal_status st) as [t|] eqn:Et.
    + left. exists t. reflexivity.
    + right. right. right. exists body, st. auto.
  - right. right. left. exists body. auto.
Qed.

Local Abbreviation pass := (pass url tid start_time a).

(** Every pass of the loop is one of these, and the loop goes on as the
    pass says. *)
Lemma loop_pass r s :
  exists k s',
    pass s r k s' /\
    forall fuel,
      loop (S fuel) r s =
      match k with
      | inl o => (o, s')
      | inr r' => loop fuel r' s'
      end.
Proof.
  destruct (Z.lt_ge_cases (clock (world s) - start_time) (timeout a)) as [Ht|Ht].
  2:{ exists (inl (Raise (timeout_exn a))), s. split.
      - now constructor.
      - intros fuel. now apply loop_timeout. }
  destruct (network (world s)) as [|ev rest] eqn:Hn.
  { eexists (inl Pending), _. split.
    - now apply pass_pending.
    - intros fuel. now apply loop_pending. }
  destruct (event_cases ev)
    as [[st Hs] | [Hf | [(body & Hr & Hm) | (body & st & Hr & Hm & Hs)]]].
  - assert (Hb : exists body, reply ev = NetOk body).
    { unfold terminal in Hs. destruct (reply ev) as [|body]; [discriminate|].
      now exists body. }
    destruct Hb as [body Hr].
    eexists (inl _), _. split.
    + now apply (pass_terminal url tid start_time a s r ev rest st body).
    + intros fuel.
      destruct (loop_terminal fuel r s ev rest st Ht Hn Hs) as (body' & Hr' & E).
      rewrite Hr in Hr'. injection Hr' as <-. exact E.
  - destruct (Z.lt_ge_cases (r + 1) (max_retries a)) as [Hr|Hr].
    + eexists (inr _), _. split.
      * now apply (pass_retry url tid start_time a s r ev rest).
      * intros fuel. now apply loop_failure_retry.
    + eexists (inl _), _. split.
      * now apply (pass_abort url tid start_time a s r ev rest).
      * intros fuel. now apply loop_failure_abort.
  - eexists (inl _), _. split.
    + now apply (pass_malformed url tid start_time a s r ev rest body).
    + intros fuel. now apply (loop_malformed fuel r s ev rest body).
  - destruct (Z.lt_ge_cases (poll_interval a) 0) as [Hp|Hp].
    + eexists (inl _), _. split.
      * now apply (pass_sleep_error url tid start_time a s r ev rest body st).
      * intros fuel. now apply (loop_negative_interval fuel r s ev rest body st).
    + eexists (inr _), _. split.
      * now apply (pass_wait url tid start_time a s r ev rest body st).
      * intros fuel. now apply (loop_non_terminal fuel r s ev rest body st).
Qed.
End Loop.

(** ** Reading the code: the submission *)

Lemma ReasoningSpeed_of_value_member S sp :
  @ReasoningSpeed_of_value S (speed_value sp) = ret sp.
Proof. destruct sp; reflexivity. Qed.

Lemma speed_invalid S v :
  (forall sp, v <> speed_value sp) ->
  @ReasoningSpeed_of_value S v =
  raise ValueError (py_repr v ++ " is not a valid ReasoningSpeed").
Proof.
  intros H. unfold ReasoningSpeed_of_value.
  destruct (String.eqb_spec v "fast") as [E|_]; [destruct (H FAST E)|].
  destruct (String.eqb_spec v "medium") as [E|_]; [destruct (H MEDIUM E)|].
  destruct (String.eqb_spec v "slow") as [E|_]; [destruct (H SLOW E)|].
  reflexivity.
Qed.

Lemma subscript_item S x k (s : S) :
  subscript x k s =
  match item x k with
  | inl e => (Raise e, s)
  | inr v => (Return v, s)
  end.
Proof.
  destruct x as [| | | | |d]; try reflexivity.
  cbn. destruct (dict_find k d); reflexivity.
Qed.

(** What a failed subscript raises is no [RequestException]. *)
Lemma item_not_transport x k e :
  item x k = inl e -> isinstance e RequestException = false.
Proof.
  destruct x as [| | | | |d]; cbn; try (intros E; injection E as <-; reflexivity).
  destruct (dict_find k d); [discriminate|].
  intros E; injection E as <-; reflexivity.
Qed.

Lemma speed_dec a : (exists sp, speed_ok a sp) \/ (forall sp, ~ speed_ok a sp).
Proof.
  unfold speed_ok. set (v := lower (speed_text (reasoning_speed a))).
  destruct (String.eqb_spec v "fast") as [E|N1]; [left; now exists FAST|].
  destruct (String.eqb_spec v "medium") as [E|N2]; [left; now exists MEDIUM|].
  destruct (String.eqb_spec v "slow") as [E|N3]; [left; now exists SLOW|].
  right. intros [| |]; assumption.
Qed.

Section Submission.
Variables (prompt : string) (a : CompleteArgs).

(** Lines 110-138 with a valid speed and a reply to the POST. *)
Lemma complete_submitted s sp ev polls :
  speed_ok a sp ->
  network (world s) = ev :: polls ->
  complete prompt a s =
  match reply ev with
  | NetFail reason =>
      (Raise (mkExn ForgeError ("Failed to start completion: " ++ reason)),
       submitted prompt sp a ev polls s)
  | NetOk body =>
      match item body "task_id" with
      | inl e => (Raise e, submitted prompt sp a ev polls s)
      | inr tid =>
          poll_loop (S (List.length polls)) (completion_url s) tid
            (clock (world s) + Z.of_N (latency ev)) a 0
            (submitted prompt sp a ev polls s)
      end
  end.
Proof.
  intros Hsp Hn. unfold complete. rewrite Hsp, ReasoningSpeed_of_value_member.
  destruct s as [c w]. cbn in Hn.
  unfold submitted, completion_url, payload.
  destruct (reply ev) as [reason|body] eqn:Hr.
  - run. cbn [network add_log]. rewrite Hn, Hr. reflexivity.
  - pose proof (item_not_transport body "task_id") as Hc.
    destruct (item body "task_id") as [e|tid] eqn:Hi;
      run; cbn [network add_log]; rewrite Hn, Hr, subscript_item, Hi;
      [rewrite (Hc e eq_refl)|]; reflexivity.
Qed.

(** ... with a valid speed and the script already used up. *)
Lemma complete_submit_pending s sp :
  speed_ok a sp ->
  network (world s) = [] ->
  complete prompt a s =
  (Pending,
   on_world (fun w => add_call (HttpPost (completion_url s) (headers (self s))
                                  (payload prompt sp a) 10)
                        (add_log (LogStarting prompt) w)) s).
Proof.
  intros Hsp Hn. unfold complete. rewrite Hsp, ReasoningSpeed_of_value_member.
  destruct s as [c w]. cbn in Hn.
  unfold completion_url, payload. run. cbn [network add_log]. rewrite Hn.
  reflexivity.
Qed.

(** Lines 110-138 when the POST succeeds and its body has a [task_id]. *)
Lemma complete_enters_loop s sp ev polls d tid :
  speed_ok a sp ->
  network (world s) = ev :: polls ->
  reply ev = NetOk (JObj d) ->
  dict_find "task_id" d = Some tid ->
  complete prompt a s =
  poll_loop (S (List.length polls)) (completion_url s) tid
    (clock (world s) + Z.of_N (latency ev)) a 0
    (submitted prompt sp a ev polls s).
Proof.
  intros Hsp Hn Hr Ht. rewrite (complete_submitted s sp ev polls Hsp Hn), Hr.
  cbn. now rewrite Ht.
Qed.

(** Line 111 on a text that names no member. *)
Lemma complete_invalid_speed s :
  (forall sp, ~ speed_ok a sp) ->
  complete prompt a s =
  (Raise (mkExn ValueError
            (py_repr (lower (speed_text (reasoning_speed a)))
             ++ " is not a valid ReasoningSpeed")), s).
Proof.
  intros H. unfold complete. rewrite speed_invalid by exact H.
  reflexivity.
Qed.

Lemma submitted_self sp ev polls s :
  self (submitted prompt sp a ev polls s) = self s.
Proof. reflexivity. Qed.

End Submission.

(** ** Runs of several passes *)

Lemma advanced_polled url tid ev rest s :
  advanced s (polled url tid ev rest s) (Z.of_N (latency ev)) 1 rest.
Proof.
  destruct s as [c w]. split; cbn; try reflexivity.
  rewrite Nat.add_1_r. reflexivity.
Qed.

Lemma advanced_waited st start d s :
  advanced s (waited st start d s) d 0 (network (world s)).
Proof. destruct s as [c w]. split; cbn; auto. Qed.

Lemma advanced_slept d s :
  advanced s (slept d s) d 0 (network (world s)).
Proof. destruct s as [c w]. split; cbn; auto. Qed.

Lemma advanced_refl s : advanced s s 0 0 (network (world s)).
Proof. split; auto. lia. Qed.

Lemma advanced_trans s1 s2 s3 d1 d2 n1 n2 r2 r3 :
  advanced s1 s2 d1 n1 r2 -> advanced s2 s3 d2 n2 r3 ->
  advanced s1 s3 (d1 + d2) (n1 + n2) r3.
Proof.
  intros [A1 A2 A3 A4] [B1 B2 B3 B4]. split.
  - congruence.
  - rewrite B2, A2. lia.
  - exact B3.
  - rewrite B4, A4. lia.
Qed.

Lemma quiet_cases ev :
  quiet ev = true ->
  transport_failure ev = true \/
  (transport_failure ev = false /\
   exists body st, reply ev = NetOk body /\ metadata_status body = Some st /\
                   terminal_status st = None).
Proof.
  unfold quiet, non_terminal, transport_failure.
  destruct (reply ev) as [|body]; [auto|].
  destruct (metadata_status body) as [st|] eqn:Em; [|discriminate].
  destruct (terminal_status st) eqn:E; [discriminate|].
  intros _. right. split; [reflexivity|]. exists body, st. auto.
Qed.

Lemma fall_through_cons a r ev evs :
  fall_through a r (ev :: evs) = true ->
  quiet ev = true /\
  (transport_failure ev = false -> 0 <= poll_interval a) /\
  (transport_failure ev = true -> r + 1 < max_retries a) /\
  fall_through a (if transport_failure ev then r + 1 else 0) evs = true.
Proof.
  unfold fall_through, sleeps_ok. cbn [forallb within_budget]. intros H.
  apply andb_true_iff in H as [H Hw].
  apply andb_true_iff in H as [Hq Hs].
  apply andb_true_iff in Hq as [Hq Hqs].
  apply andb_true_iff in Hs as [Hs Hss].
  rewrite Hqs, Hss. cbn [andb].
  destruct (transport_failure ev).
  - apply andb_true_iff in Hw as [Hb Hbs]. apply Z.ltb_lt in Hb.
    repeat split; auto; discriminate.
  - cbn in Hs. apply Z.leb_le in Hs.
    repeat split; auto; discriminate.
Qed.

Lemma pass_time_nonneg a ev :
  (transport_failure ev = false -> 0 <= poll_interval a) -> 0 <= pass_time a ev.
Proof. unfold pass_time. destruct (transport_failure ev); intros H; [lia|]. specialize (H eq_refl). lia. Qed.

Lemma script_time_nonneg a evs : sleeps_ok a evs = true -> 0 <= script_time a evs.
Proof.
  induction evs as [|ev evs IH]; cbn; [lia|]. intros H.
  apply andb_true_iff in H as [H Hs]. specialize (IH Hs).
  assert (0 <= pass_time a ev); [|lia].
  apply pass_time_nonneg. intros Hf. rewrite Hf in H. now apply Z.leb_le in H.
Qed.

(** Passes that sleep valid lengths and end before the timeout all began
    before it. *)
Lemma in_time_of_script_time a evs : forall elapsed,
  sleeps_ok a evs = true ->
  elapsed + script_time a evs < timeout a ->
  in_time a elapsed evs = true.
Proof.
  induction evs as [|ev evs IH]; intros elapsed Hs Ht; [reflexivity|].
  cbn in *. apply andb_true_iff in Hs as [H Hs].
  pose proof (script_time_nonneg a evs Hs).
  assert (0 <= pass_time a ev).
  { apply pass_time_nonneg. intros Hf. rewrite Hf in H. now apply Z.leb_le in H. }
  apply andb_true_iff. split.
  - apply Z.ltb_lt. lia.
  - apply IH; [exact Hs | lia].
Qed.

Section Runs.
Variables (url : string) (tid : json) (start_time : Z) (a : CompleteArgs).

Local Abbreviation loop fuel := (poll_loop fuel url tid start_time a).

(** One pass that falls through. *)
Lemma loop_fall_through fuel r s ev rest :
  clock (world s) - start_time < timeout a ->
  network (world s) = ev :: rest ->
  fall_through a r [ev] = true ->
  exists s',
    loop (S fuel) r s = loop fuel (counter_after r [ev]) s' /\
    advanced s s' (pass_time a ev) 1 rest.
Proof.
  intros Ht Hn Hft.
  destruct (fall_through_cons a r ev [] Hft) as (Hq & Hi & Hb & _).
  destruct (quiet_cases ev Hq) as [Hf | [Hf (body & st & Hr & Hm & Hs)]].
  - rewrite (loop_failure_retry url tid start_time a _ _ _ ev rest) by auto.
    eexists. split.
    + cbn. rewrite Hf. reflexivity.
    + unfold pass_time. rewrite Hf.
      pose proof (advanced_trans _ _ _ _ _ _ _ _ _
                    (advanced_polled url tid ev rest s)
                    (advanced_slept 1 (polled url tid ev rest s))) as A.
      destruct s; exact A.
  - rewrite (loop_non_terminal url tid start_time a _ _ _ ev rest body st) by auto.
    eexists. split.
    + cbn. rewrite Hf. reflexivity.
    + unfold pass_time. rewrite Hf.
      pose proof (advanced_trans _ _ _ _ _ _ _ _ _
                    (advanced_polled url tid ev rest s)
                    (advanced_waited st start_time (poll_interval a)
                       (polled url tid ev rest s))) as A.
      destruct s; exact A.
Qed.

(** A stretch of passes that fall through, each begun in time, is run
    through pass by pass. *)
Lemma loop_prefix (evs : list NetEvent) : forall fuel r s rest,
  network (world s) = (evs ++ rest)%list ->
  fall_through a r evs = true ->
  in_time a (clock (world s) - start_time) evs = true ->
  exists s',
    loop (List.length evs + fuel) r s = loop fuel (counter_after r evs) s' /\
    advanced s s' (script_time a evs) (List.length evs) rest.
Proof.
  induction evs as [|ev evs IH]; intros fuel r s rest Hn Hft Ht.
  - exists s. split; [reflexivity|]. cbn in Hn. rewrite <- Hn. apply advanced_refl.
  - cbn in Hn, Ht. apply andb_true_iff in Ht as [Ht Hts]. apply Z.ltb_lt in Ht.
    destruct (fall_through_cons a r ev evs Hft) as (Hq & Hi & Hb & Hfts).
    assert (Hft1 : fall_through a r [ev] = true).
    { unfold fall_through. cbn. rewrite Hq. cbn.
      destruct (transport_failure ev) eqn:Hf; cbn.
      - specialize (Hb eq_refl). apply Z.ltb_lt in Hb. now rewrite Hb.
      - specialize (Hi eq_refl). apply Z.leb_le in Hi. now rewrite Hi. }
    destruct (loop_fall_through (List.length evs + fuel) r s ev (evs ++ rest)%list
                Ht Hn Hft1) as (s1 & E1 & A1).
    destruct (IH fuel (counter_after r [ev]) s1 rest (adv_network _ _ _ _ _ A1))
      as (s' & E & A2).
    { exact Hfts. }
    { rewrite (adv_clock _ _ _ _ _ A1).
      replace (clock (world s) + pass_time a ev - start_time)
        with (clock (world s) - start_time + pass_time a ev) by lia.
      exact Hts. }
    exists s'. split.
    + cbn [List.length Nat.add]. rewrite E1. exact E.
    + exact (advanced_trans _ _ _ _ _ _ _ _ _ A1 A2).
Qed.
End Runs.

(** ** What holds of every run of the loop *)

Section Invariants.
Variables (url : string) (tid : json) (start_time : Z) (a : CompleteArgs).

Local Abbreviation loop fuel := (poll_loop fuel url tid start_time a).
Local Abbreviation pass := (pass url tid start_time a).

Lemma pass_self s r k s' : pass s r k s' -> self s' = self s.
Proof. destruct 1; reflexivity. Qed.

(** A pass that falls through has taken the next reply off the script. *)
Lemma pass_again s r r' s' :
  pass s r (inr r') s' ->
  exists ev rest,
    network (world s) = ev :: rest /\ network (world s') = rest /\
    quiet ev = true /\
    r' = (if transport_failure ev then r + 1 else 0) /\
    clock (world s') = clock (world s) + pass_time a ev.
Proof.
  intros H. remember (inr r') as k eqn:Ek.
  destruct H as [ | | | |
                 | s r ev rest Ht Hn Hf Hr
                 | | s r ev rest body st Ht Hn Hr Hm Hs Hp];
    try discriminate; injection Ek as ->; exists ev, rest.
  - repeat split; auto.
    + unfold quiet. rewrite Hf. apply orb_true_r.
    + now rewrite Hf.
    + unfold pass_time. rewrite Hf. cbn. lia.
  - assert (Hq : non_terminal ev = true).
    { unfold non_terminal. now rewrite Hr, Hm, Hs. }
    assert (Hf : transport_failure ev = false).
    { unfold transport_failure. now rewrite Hr. }
    repeat split; auto.
    + unfold quiet. now rewrite Hq.
    + now rewrite Hf.
    + unfold pass_time. rewrite Hf. cbn. lia.
Qed.

(** The fuel [complete] gives the loop is enough: with more fuel than
    replies left, the loop is only ever [Pending] for want of a reply,
    with the script used up. *)
Lemma loop_pending_at_end fuel : forall r s s',
  (List.length (network (world s)) < fuel)%nat ->
  loop fuel r s = (Pending, s') ->
  network (world s') = [].
Proof.
  induction fuel as [|fuel IH]; intros r s s' Hl E; [lia|].
  destruct (loop_pass url tid start_time a r s) as (k & s1 & Hp & E1).
  rewrite E1 in E. destruct k as [o1|r1].
  - injection E as -> ->. remember (inl Pending) as k eqn:Ek.
    destruct Hp as [ | s r Ht Hn | | | | | | ]; try discriminate.
    destruct s; exact Hn.
  - destruct (pass_again _ _ _ _ Hp) as (ev & rest & Hn & Hn' & _).
    apply (IH _ _ _) in E; [exact E|].
    rewrite Hn in Hl. rewrite Hn'. cbn [List.length] in Hl. lia.
Qed.

(** ... and more fuel than that changes nothing. *)
Lemma loop_fuel fuel : forall fuel' r s,
  (List.length (network (world s)) < fuel)%nat ->
  (List.length (network (world s)) < fuel')%nat ->
  loop fuel r s = loop fuel' r s.
Proof.
  induction fuel as [|fuel IH]; intros fuel' r s Hl Hl'; [lia|].
  destruct fuel' as [|fuel']; [lia|].
  destruct (loop_pass url tid start_time a r s) as (k & s1 & Hp & E1).
  rewrite !E1. destruct k as [o1|r1]; [reflexivity|].
  destruct (pass_again _ _ _ _ Hp) as (ev & rest & Hn & Hn' & _).
  rewrite Hn in Hl, Hl'. cbn [List.length] in Hl, Hl'.
  apply IH; rewrite Hn'; lia.
Qed.

(** The client object is the same after the loop, however it ends. *)
Lemma loop_self fuel : forall r s o s',
  loop fuel r s = (o, s') -> self s' = self s.
Proof.
  induction fuel as [|fuel IH]; intros r s o s' E.
  - cbn in E. injection E as _ <-. reflexivity.
  - destruct (loop_pass url tid start_time a r s) as (k & s1 & Hp & E1).
    rewrite E1 in E. pose proof (pass_self _ _ _ _ Hp) as Hs.
    destruct k as [o1|r1].
    + injection E as _ <-. exact Hs.
    + rewrite (IH _ _ _ _ E). exact Hs.
Qed.

(** A response is returned only from a pass that polled a terminal
    status: it carries that status, the body of that reply, the task id,
    and the time since the loop began. *)
Lemma loop_return fuel : forall r s resp s',
  loop fuel r s = (Return resp, s') ->
  task_id resp = tid /\
  completion_time resp = clock (world s') - start_time /\
  exists ev,
    In ev (network (world s)) /\
    terminal ev = Some (status resp) /\
    reply ev = NetOk (result resp).
Proof.
  induction fuel as [|fuel IH]; intros r s resp s' E.
  - discriminate.
  - destruct (loop_pass url tid start_time a r s) as (k & s1 & Hp & E1).
    rewrite E1 in E. destruct k as [o1|r1].
    + injection E as -> ->. remember (inl (Return resp)) as k eqn:Ek.
      destruct Hp as [ | | s r ev rest st body Ht Hn Hs Hr | | | | | ];
        try discriminate; injection Ek as <-.
      split; [reflexivity|]. split.
      * rewrite (adv_clock _ _ _ _ _ (advanced_polled url tid ev rest s)).
        cbn. lia.
      * exists ev. rewrite Hn. cbn. auto.
    + destruct (pass_again _ _ _ _ Hp) as (ev & rest & Hn & Hn' & _).
      destruct (IH _ _ _ _ E) as (Ht & Hc & ev' & Hin & Hev).
      repeat split; auto. exists ev'. rewrite Hn. rewrite Hn' in Hin.
      split; [now right | exact Hev].
Qed.

End Invariants.

(** ** Construction *)

Lemma init_world key url w : snd (ForgeClient_init key url w) = w.
Proof.
  unfold ForgeClient_init, os_getenv, bind, gets, ret, raise.
  destruct key as [k|]; [destruct (String.eqb k "") eqn:E|]; cbn;
    try (destruct (assoc "FORGE_API_KEY" (environ w)) as [k'|]; cbn;
         [destruct (String.eqb k' "")|]; reflexivity).
  rewrite E. reflexivity.
Qed.

Lemma init_env url w :
  ForgeClient_init None url w =
  match assoc "FORGE_API_KEY" (environ w) with
  | Some k => if String.eqb k "" then (Raise auth_exn, w)
              else (Return (client_of k url), w)
  | None => (Raise auth_exn, w)
  end.
Proof.
  unfold ForgeClient_init, os_getenv, bind, gets, ret, raise. cbn.
  destruct (assoc "FORGE_API_KEY" (environ w)) as [k|]; [|reflexivity].
  destruct (String.eqb k ""); reflexivity.
Qed.

Lemma init_key k url w :
  k <> "" -> ForgeClient_init (Some k) url w = (Return (client_of k url), w).
Proof.
  intros H. unfold ForgeClient_init, bind, ret.
  destruct (String.eqb_spec k ""); [contradiction|]. cbn.
  destruct (String.eqb_spec k ""); [contradiction|]. reflexivity.
Qed.

(** C7. Constructing the client with no [api_key] argument and no
    [FORGE_API_KEY] in the environment raises [ForgeAuthError]; with a
    credential from the argument or from the environment it returns a
    client holding that credential.  In every case the world after
    construction is the world before it: no request is on record and no
    reply is taken off the script, so no network call is made, before
    the raise or otherwise. *)
Theorem C7_construction_credential (url : string) (w : World) :
  (assoc "FORGE_API_KEY" (environ w) = None ->
   ForgeClient_init None url w = (Raise auth_exn, w)) /\
  (forall k, k <> "" ->
   ForgeClient_init (Some k) url w = (Return (client_of k url), w)) /\
  (forall k, k <> "" -> assoc "FORGE_API_KEY" (environ w) = Some k ->
   ForgeClient_init None url w = (Return (client_of k url), w)) /\
  (forall key, calls (snd (ForgeClient_init key url w)) = calls w /\
               network (snd (ForgeClient_init key url w)) = network w).
Proof.
  split; [|split; [|split]].
  - intros H. rewrite init_env, H. reflexivity.
  - intros k Hk. now apply init_key.
  - intros k Hk H. rewrite init_env, H.
    destruct (String.eqb_spec k ""); [contradiction | reflexivity].
  - intros key. now rewrite init_world.
Qed.

(** C9 (as the code has it). An explicitly supplied empty [api_key] is
    handled exactly as no argument at all, and an empty [FORGE_API_KEY] exactly as an unset
    one: in each of these cases, with nothing else to fall back on,
    construction raises [ForgeAuthError]. *)
Theorem C9_empty_credential_is_absent (url : string) (w : World) :
  ForgeClient_init (Some "") url w = ForgeClient_init None url w /\
  (assoc "FORGE_API_KEY" (environ w) = None \/
   assoc "FORGE_API_KEY" (environ w) = Some "" ->
   ForgeClient_init (Some "") url w = (Raise auth_exn, w) /\
   ForgeClient_init None url w = (Raise auth_exn, w)).
Proof.
  assert (E : ForgeClient_init (Some "") url w = ForgeClient_init None url w)
    by reflexivity.
  split; [exact E|]. intros H. rewrite E, init_env.
  destruct H as [-> | ->]; split; reflexivity.
Qed.

(** ** The frame of [complete] *)


(** The client object is the same after [complete], however it ends. *)
Lemma complete_self prompt a s o s' :
  complete prompt a s = (o, s') -> self s' = self s.
Proof.
  destruct (speed_dec a) as [[sp Hsp]|Hsp].
  2:{ rewrite complete_invalid_speed by exact Hsp.
      intros E. injection E as _ <-. reflexivity. }
  destruct (network (world s)) as [|ev polls] eqn:Hn.
  { rewrite (complete_submit_pending prompt a s sp Hsp Hn).
    intros E. injection E as _ <-. reflexivity. }
  rewrite (complete_submitted prompt a s sp ev polls Hsp Hn).
  destruct (reply ev) as [reason|body].
  { intros E. injection E as _ <-. reflexivity. }
  destruct (item body "task_id") as [e|tid].
  { intros E. injection E as _ <-. reflexivity. }
  intros E. apply loop_self in E. exact E.
Qed.

(** [complete] is only ever [Pending] for want of a scripted reply. *)
Lemma complete_pending_at_end prompt a s s' :
  complete prompt a s = (Pending, s') -> network (world s') = [].
Proof.
  destruct (speed_dec a) as [[sp Hsp]|Hsp].
  2:{ rewrite complete_invalid_speed by exact Hsp. discriminate. }
  destruct (network (world s)) as [|ev polls] eqn:Hn.
  { rewrite (complete_submit_pending prompt a s sp Hsp Hn).
    intros E. injection E as <-. destruct s; exact Hn. }
  rewrite (complete_submitted prompt a s sp ev polls Hsp Hn).
  destruct (reply ev) as [reason|body]; [discriminate|].
  destruct (item body "task_id") as [e|tid]; [discriminate|].
  intros E. apply loop_pending_at_end in E; [exact E|].
  destruct s; cbn. lia.
Qed.

(** C10. Whatever a call to [complete] does (return a response, raise any
    exception, or still be polling when the script ends), the client
    object is left as it was: [api_key], [base_url] and [headers] are the
    same after the call as before, and so a later call on the client runs
    as it would on the client as constructed. *)
Theorem C10_complete_leaves_client (prompt : string) (a : CompleteArgs)
    (s : Machine) :
  let s' := snd (complete prompt a s) in
  api_key (self s') = api_key (self s) /\
  base_url (self s') = base_url (self s) /\
  headers (self s') = headers (self s) /\
  forall prompt2 a2,
    complete prompt2 a2 s' = complete prompt2 a2 (mkMachine (self s) (world s')).
Proof.
  intros s'. assert (E : self s' = self s).
  { subst s'. destruct (complete prompt a s) as [o s1] eqn:E.
    exact (complete_self _ _ _ _ _ E). }
  rewrite E. repeat split. intros prompt2 a2.
  destruct s' as [c' w']. cbn in E |- *. now rewrite E.
Qed.

(** ** Runs of [complete] *)

Lemma fall_through_sleeps a r evs :
  fall_through a r evs = true -> sleeps_ok a evs = true.
Proof.
  unfold fall_through. intros H.
  apply andb_true_iff in H as [H _]. now apply andb_true_iff in H as [_ H].
Qed.

Lemma keeps_polling_in_time a pre :
  keeps_polling a pre = true ->
  fall_through a 0 pre = true /\ in_time a 0 pre = true /\
  script_time a pre < timeout a.
Proof.
  unfold keeps_polling. intros H. apply andb_true_iff in H as [Hf Ht].
  apply Z.ltb_lt in Ht. repeat split; auto.
  apply in_time_of_script_time; [|lia].
  exact (fall_through_sleeps _ _ _ Hf).
Qed.

(** [complete], after the submission and the polls [pre], each begun in
    time and falling through, is at the loop test with [rest] of the
    script ahead. *)
Lemma complete_polling prompt a s post tid pre rest :
  network (world s) = (post :: pre ++ rest)%list ->
  accepted a post tid ->
  fall_through a 0 pre = true ->
  in_time a 0 pre = true ->
  exists s1,
    complete prompt a s =
    poll_loop (S (List.length rest)) (completion_url s) tid
      (clock (world s) + Z.of_N (latency post)) a (counter_after 0 pre) s1 /\
    advanced s s1 (Z.of_N (latency post) + script_time a pre)
      (List.length pre) rest.
Proof.
  intros Hn [[sp Hsp] (d & Hr & Hd)] Hft Ht.
  rewrite (complete_enters_loop prompt a s sp post (pre ++ rest)%list d tid)
    by assumption.
  set (s0 := submitted prompt sp a post (pre ++ rest)%list s).
  assert (A0 : advanced s s0 (Z.of_N (latency post)) 0 (pre ++ rest)%list).
  { subst s0. destruct s as [c w]. split; cbn; auto. }
  destruct (loop_prefix (completion_url s) tid
              (clock (world s) + Z.of_N (latency post)) a pre
              (S (List.length rest)) 0 s0 rest (adv_network _ _ _ _ _ A0) Hft)
    as (s1 & E & A1).
  { rewrite (adv_clock _ _ _ _ _ A0), Z.sub_diag. exact Ht. }
  exists s1. split.
  - rewrite <- E. f_equal. rewrite length_app. lia.
  - exact (advanced_trans _ _ _ _ _ _ _ _ _ A0 A1).
Qed.

Lemma status_is_metadata body st :
  status_is body st -> metadata_status body = Some (JStr st).
Proof.
  intros (d & md & -> & Hm & Hs). unfold metadata_status.
  rewrite dict_get_find, Hm, dict_get_find, Hs. reflexivity.
Qed.


Lemma terminal_status_in st :
  In st terminal_statuses -> terminal_status (JStr st) = Some st.
Proof.
  intros [<- | [<- | [<- | []]]]; reflexivity.
Qed.

(** C1. In a run of [complete] that has got past the submission and
    through any polls that left the loop running, a poll reply whose
    [metadata.status] is ["succeeded"], ["failed"] or ["cancelled"] makes
    [complete] return, not raise: the response carries that status and,
    as [result], the whole body of the reply as received; nothing more is
    taken off the script and the GET of this reply is the last request
    made.  The [succeeded] predicate of the response holds exactly when
    the status is ["succeeded"]. *)
Theorem C1_terminal_status_returns (prompt : string) (a : CompleteArgs)
    (s : Machine) (post : NetEvent) (tid : json) (pre : list NetEvent)
    (ev : NetEvent) (rest : list NetEvent) (body : json) (st : string) :
  network (world s) = (post :: pre ++ ev :: rest)%list ->
  accepted a post tid ->
  keeps_polling a pre = true ->
  reply ev = NetOk body ->
  status_is body st ->
  In st terminal_statuses ->
  exists resp s',
    complete prompt a s = (Return resp, s') /\
    status resp = st /\
    result resp = body /\
    network (world s') = rest /\
    gets_made (calls (world s')) =
      (gets_made (calls (world s)) + List.length pre + 1)%nat /\
    (succeeded resp = true <-> st = "succeeded").
Proof.
  intros Hn Hacc Hk Hr Hst Hin.
  destruct (keeps_polling_in_time a pre Hk) as (Hft & Hit & Hlt).
  destruct (complete_polling prompt a s post tid pre (ev :: rest) Hn Hacc Hft Hit)
    as (s1 & E & A).
  assert (Hterm : terminal ev = Some st).
  { unfold terminal. rewrite Hr, (status_is_metadata body st Hst).
    now apply terminal_status_in. }
  destruct (loop_terminal (completion_url s) tid
              (clock (world s) + Z.of_N (latency post)) a
              (List.length (ev :: rest)) (counter_after 0 pre) s1 ev rest st)
    as (body' & Hr' & E').
  { rewrite (adv_clock _ _ _ _ _ A). lia. }
  { exact (adv_network _ _ _ _ _ A). }
  { exact Hterm. }
  rewrite Hr in Hr'. injection Hr' as <-.
  eexists _, _. split; [rewrite E; exact E'|].
  pose proof (advanced_trans _ _ _ _ _ _ _ _ _ A
                (advanced_polled (completion_url s) tid ev rest s1)) as A'.
  split; [reflexivity|]. split; [reflexivity|]. split; [|split].
  - exact (adv_network _ _ _ _ _ A').
  - rewrite (adv_gets _ _ _ _ _ A'). lia.
  - unfold succeeded. cbn [status]. apply String.eqb_eq.
Qed.

Lemma advanced_logged st start s :
  advanced s (logged st start s) 0 0 (network (world s)).
Proof. destruct s as [c w]. split; cbn; auto. lia. Qed.

(** [complete] at a poll that returns a non-terminal status: after the
    polls [pre] that left the loop running, what remains of the call is
    the sleep of the poll interval and then the loop, its failure counter
    at zero. *)
Lemma complete_non_terminal prompt a s post tid pre ev rest :
  network (world s) = (post :: pre ++ ev :: rest)%list ->
  accepted a post tid ->
  keeps_polling a pre = true ->
  non_terminal ev = true ->
  exists s1,
    complete prompt a s =
    (lift (time_sleep (poll_interval a)) ;;
     poll_loop (List.length (ev :: rest)) (completion_url s) tid
       (clock (world s) + Z.of_N (latency post)) a 0) s1 /\
    advanced s s1
      (Z.of_N (latency post) + script_time a pre + Z.of_N (latency ev))
      (List.length pre + 1) rest.
Proof.
  intros Hn Hacc Hk Hnt.
  destruct (keeps_polling_in_time a pre Hk) as (Hft & Hit & Hlt).
  destruct (complete_polling prompt a s post tid pre (ev :: rest) Hn Hacc Hft Hit)
    as (s1 & E & A).
  unfold non_terminal in Hnt.
  destruct (reply ev) as [|body] eqn:Hr; [discriminate|].
  destruct (metadata_status body) as [st|] eqn:Hm; [|discriminate].
  destruct (terminal_status st) eqn:Hs; [discriminate|].
  rewrite E.
  rewrite (loop_non_terminal_sleep (completion_url s) tid
             (clock (world s) + Z.of_N (latency post)) a
             (List.length (ev :: rest)) (counter_after 0 pre) s1 ev rest body st);
    auto.
  - eexists. split; [reflexivity|].
    pose proof (advanced_trans _ _ _ _ _ _ _ _ _ A
                  (advanced_trans _ _ _ _ _ _ _ _ _
                     (advanced_polled (completion_url s) tid ev rest s1)
                     (advanced_logged st
                        (clock (world s) + Z.of_N (latency post))
                        (polled (completion_url s) tid ev rest s1)))) as A'.
    replace (network (world (polled (completion_url s) tid ev rest s1)))
      with rest in A' by (destruct s1; reflexivity).
    replace (1 + 0)%nat with 1%nat in A' by reflexivity.
    replace (Z.of_N (latency post) + script_time a pre + (Z.of_N (latency ev) + 0))
      with (Z.of_N (latency post) + script_time a pre + Z.of_N (latency ev))
      in A' by lia.
    exact A'.
  - rewrite (adv_clock _ _ _ _ _ A). lia.
  - exact (adv_network _ _ _ _ _ A).
Qed.




(** ** Runs of transport failures *)

Lemma counter_after_failures fails : forall r,
  forallb transport_failure fails = true ->
  counter_after r fails = r + Z.of_nat (List.length fails).
Proof.
  induction fails as [|ev fails IH]; intros r H; cbn [counter_after List.length].
  - lia.
  - cbn in H. apply andb_true_iff in H as [Hf Hs]. rewrite Hf, IH by exact Hs. lia.
Qed.

Lemma fall_through_failures a fails : forall r,
  forallb transport_failure fails = true ->
  r + Z.of_nat (List.length fails) < max_retries a ->
  fall_through a r fails = true.
Proof.
  induction fails as [|ev fails IH]; intros r H Hr; [reflexivity|].
  cbn in H. apply andb_true_iff in H as [Hf Hs].
  cbn [List.length] in Hr.
  specialize (IH (r + 1) Hs ltac:(lia)).
  unfold fall_through, sleeps_ok in *. cbn [forallb within_budget].
  unfold quiet at 1. rewrite Hf, orb_true_r. cbn [andb orb].
  apply andb_true_iff in IH as [IH Hw].
  apply andb_true_iff in IH as [Hq Hsl].
  rewrite Hq, Hsl, Hw. cbn [andb].
  rewrite andb_true_r. apply Z.ltb_lt. lia.
Qed.


(** While every reply is a transport failure and there are fewer of them
    than the counter needs to reach the maximum, the loop does not raise
    its retries error: it times out or is still polling. *)
Lemma loop_failures_below_budget url tid start_time a fuel : forall r s o s',
  forallb transport_failure (network (world s)) = true ->
  r + Z.of_nat (List.length (network (world s))) < max_retries a ->
  poll_loop fuel url tid start_time a r s = (o, s') ->
  o = Pending \/ o = Raise (timeout_exn a).
Proof.
  induction fuel as [|fuel IH]; intros r s o s' Hf Hr E.
  - cbn in E. injection E as <- _. now left.
  - destruct (loop_pass url tid start_time a r s) as (k & s1 & Hp & E1).
    rewrite E1 in E.
    destruct Hp as [ s r Ht | s r Ht Hn
                   | s r ev rest st body Ht Hn Hs Hrp
                   | s r ev rest body Ht Hn Hrp Hm
                   | s r ev rest Ht Hn Hfe Hmax
                   | s r ev rest Ht Hn Hfe Hmax
                   | s r ev rest body st Ht Hn Hrp Hm Hs Hp
                   | s r ev rest body st Ht Hn Hrp Hm Hs Hp ].
    + injection E as <- _. now right.
    + injection E as <- _. now left.
    + rewrite Hn in Hf. cbn in Hf. unfold transport_failure at 1 in Hf.
      rewrite Hrp in Hf. discriminate.
    + rewrite Hn in Hf. cbn in Hf. unfold transport_failure at 1 in Hf.
      rewrite Hrp in Hf. discriminate.
    + rewrite Hn in Hr. cbn [List.length] in Hr. lia.
    + apply (IH _ _ _ _) in E; auto.
      * rewrite Hn in Hf. cbn in Hf. apply andb_true_iff in Hf as [_ Hf].
        destruct s; exact Hf.
      * rewrite Hn in Hr. cbn [List.length] in Hr.
        replace (network (world (slept 1 (polled url tid ev rest s))))
          with rest by (destruct s; reflexivity).
        lia.
    + rewrite Hn in Hf. cbn in Hf. unfold transport_failure at 1 in Hf.
      rewrite Hrp in Hf. discriminate.
    + rewrite Hn in Hf. cbn in Hf. unfold transport_failure at 1 in Hf.
      rewrite Hrp in Hf. discriminate.
Qed.

(** C2 (as the code has it). The consecutive-failure counter of the poll
    loop, in a run of [complete] that has got past the submission (the maximum defaults
    to 5):
    - a poll that fails in transport while the counter stays below the
      maximum is followed by a sleep of 1 and a new pass, the counter one
      higher and the start of the loop, from which elapsed time is taken,
      unchanged;
    - a poll that fails in transport and brings the counter to the maximum
      raises [ForgeError], its message naming the maximum;
    - a poll that succeeds with a non-terminal status, whatever the
      counter was, is followed by the sleep of the poll interval and a new
      pass with the counter at zero;
    - so when every poll fails the counter is the number of polls made,
      [ForgeError] is raised at the poll that makes it reach the maximum
      (if the timeout has not come first), and with fewer failures than
      the maximum it is not raised. *)
Theorem C2_retry_budget (prompt : string) (a : CompleteArgs) (s : Machine)
    (post : NetEvent) (tid : json) :
  accepted a post tid ->
  max_retries default_args = 5 /\
  (forall pre ev rest,
     network (world s) = (post :: pre ++ ev :: rest)%list ->
     keeps_polling a pre = true ->
     transport_failure ev = true ->
     counter_after 0 pre + 1 < max_retries a ->
     exists s1,
       complete prompt a s =
       poll_loop (List.length (ev :: rest)) (completion_url s) tid
         (clock (world s) + Z.of_N (latency post)) a (counter_after 0 pre + 1) s1 /\
       advanced s s1
         (Z.of_N (latency post) + script_time a pre + (Z.of_N (latency ev) + 1))
         (List.length pre + 1) rest) /\
  (forall pre ev rest,
     network (world s) = (post :: pre ++ ev :: rest)%list ->
     keeps_polling a pre = true ->
     transport_failure ev = true ->
     max_retries a <= counter_after 0 pre + 1 ->
     exists s',
       complete prompt a s =
       (Raise (mkExn ForgeError
                 ("Polling failed after " ++ str_of_Z (max_retries a) ++ " retries")),
        s') /\
       advanced s s'
         (Z.of_N (latency post) + script_time a pre + Z.of_N (latency ev))
         (List.length pre + 1) rest) /\
  (forall pre ev rest,
     network (world s) = (post :: pre ++ ev :: rest)%list ->
     keeps_polling a pre = true ->
     non_terminal ev = true ->
     exists s1,
       complete prompt a s =
       (lift (time_sleep (poll_interval a)) ;;
        poll_loop (List.length (ev :: rest)) (completion_url s) tid
          (clock (world s) + Z.of_N (latency post)) a 0) s1 /\
       advanced s s1
         (Z.of_N (latency post) + script_time a pre + Z.of_N (latency ev))
         (List.length pre + 1) rest) /\
  (forall fails,
     forallb transport_failure fails = true ->
     counter_after 0 fails = Z.of_nat (List.length fails)) /\
  (forall fails ev rest,
     network (world s) = (post :: fails ++ ev :: rest)%list ->
     forallb transport_failure (fails ++ [ev]) = true ->
     Z.of_nat (List.length fails) + 1 = Z.max 1 (max_retries a) ->
     script_time a fails < timeout a ->
     exists s',
       complete prompt a s = (Raise (retries_exn a), s') /\
       network (world s') = rest /\
       gets_made (calls (world s')) =
         (gets_made (calls (world s)) + List.length fails + 1)%nat) /\
  (forall fails o s',
     network (world s) = post :: fails ->
     forallb transport_failure fails = true ->
     Z.of_nat (List.length fails) < max_retries a ->
     complete prompt a s = (o, s') ->
     o = Pending \/ o = Raise (timeout_exn a)).
Proof.
  intros Hacc.
  assert (Step : forall pre ev rest,
     network (world s) = (post :: pre ++ ev :: rest)%list ->
     keeps_polling a pre = true ->
     exists s1,
       complete prompt a s =
       poll_loop (S (List.length (ev :: rest))) (completion_url s) tid
         (clock (world s) + Z.of_N (latency post)) a (counter_after 0 pre) s1 /\
       advanced s s1 (Z.of_N (latency post) + script_time a pre)
         (List.length pre) (ev :: rest) /\
       clock (world s1) - (clock (world s) + Z.of_N (latency post)) < timeout a).
  { intros pre ev rest Hn Hk.
    destruct (keeps_polling_in_time a pre Hk) as (Hft & Hit & Hlt).
    destruct (complete_polling prompt a s post tid pre (ev :: rest) Hn Hacc Hft Hit)
      as (s1 & E & A).
    exists s1. repeat split; try apply A; auto.
    rewrite (adv_clock _ _ _ _ _ A). lia. }
  assert (Abort : forall pre ev rest,
     network (world s) = (post :: pre ++ ev :: rest)%list ->
     keeps_polling a pre = true ->
     transport_failure ev = true ->
     max_retries a <= counter_after 0 pre + 1 ->
     exists s',
       complete prompt a s = (Raise (retries_exn a), s') /\
       advanced s s'
         (Z.of_N (latency post) + script_time a pre + Z.of_N (latency ev))
         (List.length pre + 1) rest).
  { intros pre ev rest Hn Hk Hf Hm.
    destruct (Step pre ev rest Hn Hk) as (s1 & E & A & Ht).
    rewrite E.
    rewrite (loop_failure_abort _ _ _ _ _ _ _ ev rest Ht (adv_network _ _ _ _ _ A) Hf Hm).
    eexists. split; [reflexivity|].
    exact (advanced_trans _ _ _ _ _ _ _ _ _ A
             (advanced_polled (completion_url s) tid ev rest s1)). }
  split; [reflexivity|]. split; [|split; [|split; [|split; [|split]]]].
  - intros pre ev rest Hn Hk Hf Hm.
    destruct (Step pre ev rest Hn Hk) as (s1 & E & A & Ht).
    rewrite E.
    rewrite (loop_failure_retry _ _ _ _ _ _ _ ev rest Ht (adv_network _ _ _ _ _ A) Hf Hm).
    eexists. split; [reflexivity|].
    pose proof (advanced_trans _ _ _ _ _ _ _ _ _ A
                  (advanced_trans _ _ _ _ _ _ _ _ _
                     (advanced_polled (completion_url s) tid ev rest s1)
                     (advanced_slept 1
                        (polled (completion_url s) tid ev rest s1)))) as A'.
    replace (network (world (polled (completion_url s) tid ev rest s1)))
      with rest in A' by (destruct s1; reflexivity).
    replace (1 + 0)%nat with 1%nat in A' by reflexivity.
    exact A'.
  - exact Abort.
  - intros pre ev rest Hn Hk Hnt.
    now apply (complete_non_terminal prompt a s post tid pre ev rest).
  - intros fails Hf. now rewrite counter_after_failures.
  - intros fails ev rest Hn Hall Hlen Ht.
    rewrite forallb_app in Hall. apply andb_true_iff in Hall as [Hfs Hfe].
    cbn in Hfe. rewrite andb_true_r in Hfe.
    assert (Hk : keeps_polling a fails = true).
    { unfold keeps_polling. apply andb_true_iff. split.
      - destruct fails as [|f fails]; [reflexivity|].
        apply fall_through_failures; [exact Hfs | cbn [List.length] in *; lia].
      - now apply Z.ltb_lt. }
    destruct (Abort fails ev rest Hn Hk Hfe) as (s' & E & A).
    { rewrite counter_after_failures by exact Hfs. lia. }
    exists s'. split; [exact E|]. split.
    + exact (adv_network _ _ _ _ _ A).
    + rewrite (adv_gets _ _ _ _ _ A). lia.
  - intros fails o s' Hn Hfs Hlen E.
    destruct Hacc as [[sp Hsp] (d & Hr & Hd)].
    rewrite (complete_enters_loop prompt a s sp post fails d tid) in E by assumption.
    replace fails with (network (world (submitted prompt sp a post fails s)))
      in Hfs, Hlen by (destruct s; reflexivity).
    apply loop_failures_below_budget in E; [exact E | exact Hfs | lia].
Qed.

(** ** What a returned response says about the run *)

(** [complete] returns only after an accepted submission and from a poll
    reply with a terminal status; the response carries the task id of the
    submission, the status and body of that reply, and the time from the
    arrival of the submission reply to the arrival of that reply. *)
Lemma complete_return prompt a s resp s' :
  complete prompt a s = (Return resp, s') ->
  exists post polls,
    network (world s) = post :: polls /\
    accepted a post (task_id resp) /\
    completion_time resp =
      clock (world s') - (clock (world s) + Z.of_N (latency post)) /\
    exists ev,
      In ev polls /\ terminal ev = Some (status resp) /\
      reply ev = NetOk (result resp).
Proof.
  destruct (speed_dec a) as [[sp Hsp]|Hsp].
  2:{ rewrite complete_invalid_speed by exact Hsp. discriminate. }
  destruct (network (world s)) as [|post polls] eqn:Hn.
  { rewrite (complete_submit_pending prompt a s sp Hsp Hn). discriminate. }
  rewrite (complete_submitted prompt a s sp post polls Hsp Hn).
  destruct (reply post) as [reason|body] eqn:Hr; [discriminate|].
  destruct body as [| | | | |d]; try discriminate.
  cbn [item]. destruct (dict_find "task_id" d) as [tid|] eqn:Hd; [|discriminate].
  intros E. apply loop_return in E. destruct E as (Ht & Hc & ev & Hin & Hev).
  exists post, polls. split; [reflexivity|]. split; [|split].
  - split; [now exists sp|]. exists d. rewrite Ht. auto.
  - exact Hc.
  - exists ev. split; [|exact Hev]. destruct s; exact Hin.
Qed.

(** C5 (as the code has it). The [completion_time] of a returned
    response is the time from the start of the poll loop, which is when
    the reply to the submission has arrived, to the arrival of the poll
    reply with the terminal status.  The time the submission request
    itself took is not part of it: the window opens after it. *)
Theorem C5_completion_time_from_loop_start (prompt : string)
    (a : CompleteArgs) (s : Machine) (resp : ForgeResponse) (s' : Machine) :
  complete prompt a s = (Return resp, s') ->
  exists post polls,
    network (world s) = post :: polls /\
    completion_time resp =
      clock (world s') - (clock (world s) + Z.of_N (latency post)) /\
    completion_time resp =
      (clock (world s') - clock (world s)) - Z.of_N (latency post).
Proof.
  intros E. destruct (complete_return prompt a s resp s' E)
    as (post & polls & Hn & _ & Hc & _).
  exists post, polls. repeat split; auto. lia.
Qed.





(** ** Running into the timeout *)

Lemma fall_through_cons_intro a r ev evs :
  quiet ev = true ->
  (transport_failure ev = false -> 0 <= poll_interval a) ->
  (transport_failure ev = true -> r + 1 < max_retries a) ->
  fall_through a (if transport_failure ev then r + 1 else 0) evs = true ->
  fall_through a r (ev :: evs) = true.
Proof.
  unfold fall_through, sleeps_ok. cbn [forallb within_budget].
  intros Hq Hi Hb H.
  apply andb_true_iff in H as [H Hw]. apply andb_true_iff in H as [Hqs Hs].
  rewrite Hq, Hqs, Hs. cbn [andb].
  destruct (transport_failure ev).
  - specialize (Hb eq_refl). apply Z.ltb_lt in Hb. now rewrite Hb, Hw.
  - specialize (Hi eq_refl). apply Z.leb_le in Hi. now rewrite Hi, Hw.
Qed.

(** Passes that fall through and together last to the timeout or beyond
    have a first stretch, each pass of it begun in time, that ends at or
    after the timeout. *)
Lemma reach_timeout a evs : forall r elapsed,
  fall_through a r evs = true ->
  timeout a <= elapsed + script_time a evs ->
  exists pre rest,
    evs = (pre ++ rest)%list /\
    fall_through a r pre = true /\
    in_time a elapsed pre = true /\
    timeout a <= elapsed + script_time a pre.
Proof.
  induction evs as [|ev evs IH]; intros r elapsed Hft Ht.
  - exists [], []. cbn in *. repeat split; auto.
  - destruct (Z.lt_ge_cases elapsed (timeout a)) as [Hlt|Hge].
    + destruct (fall_through_cons a r ev evs Hft) as (Hq & Hi & Hb & Hfts).
      cbn [script_time] in Ht.
      destruct (IH _ (elapsed + pass_time a ev) Hfts ltac:(lia))
        as (pre & rest & -> & Hfp & Hip & Htp).
      exists (ev :: pre), rest. split; [reflexivity|]. split; [|split].
      * now apply fall_through_cons_intro.
      * cbn [in_time]. apply andb_true_iff. split; [now apply Z.ltb_lt | exact Hip].
      * cbn [script_time]. lia.
    + exists [], (ev :: evs). cbn. repeat split; auto. lia.
Qed.

(** C3 (as the code has it). In a run of [complete] that has got past
    the submission (the timeout defaults to 300):
    - when the polls made so far have all fallen through (non-terminal
      statuses or transport failures below the maximum) and the loop test
      finds that the time since the loop began has reached the timeout,
      [complete] raises [ForgeTimeoutError], its message naming the
      timeout, and no further poll is made: the requests on record are
      those polls, and what follows them in the script is left there;
    - so when the scripted polls all fall through and together last to
      the timeout or beyond, [complete] raises [ForgeTimeoutError], at a
      time at or after the timeout;
    - and when no scripted poll carries a terminal status, [complete]
      returns no response, whatever else happens. *)
Theorem C3_timeout (prompt : string) (a : CompleteArgs) (s : Machine)
    (post : NetEvent) (tid : json) :
  accepted a post tid ->
  timeout default_args = 300 /\
  (forall pre rest,
     network (world s) = (post :: pre ++ rest)%list ->
     fall_through a 0 pre = true ->
     in_time a 0 pre = true ->
     timeout a <= script_time a pre ->
     exists s',
       complete prompt a s =
       (Raise (mkExn ForgeTimeoutError
                 ("Completion timed out after " ++ str_of_Z (timeout a)
                  ++ " seconds")), s') /\
       advanced s s' (Z.of_N (latency post) + script_time a pre)
         (List.length pre) rest) /\
  (forall polls,
     network (world s) = post :: polls ->
     fall_through a 0 polls = true ->
     timeout a <= script_time a polls ->
     exists s',
       complete prompt a s = (Raise (timeout_exn a), s') /\
       timeout a <= clock (world s') - (clock (world s) + Z.of_N (latency post))) /\
  (forall polls resp s',
     network (world s) = post :: polls ->
     (forall ev, In ev polls -> terminal ev = None) ->
     complete prompt a s <> (Return resp, s')).
Proof.
  intros Hacc.
  assert (Head : forall pre rest,
     network (world s) = (post :: pre ++ rest)%list ->
     fall_through a 0 pre = true ->
     in_time a 0 pre = true ->
     timeout a <= script_time a pre ->
     exists s',
       complete prompt a s = (Raise (timeout_exn a), s') /\
       advanced s s' (Z.of_N (latency post) + script_time a pre)
         (List.length pre) rest).
  { intros pre rest Hn Hft Hit Ht.
    destruct (complete_polling prompt a s post tid pre rest Hn Hacc Hft Hit)
      as (s1 & E & A).
    exists s1. split; [|exact A]. rewrite E. apply loop_timeout.
    rewrite (adv_clock _ _ _ _ _ A). lia. }
  split; [reflexivity|]. split; [exact Head|]. split.
  - intros polls Hn Hft Ht.
    destruct (reach_timeout a polls 0 0 Hft ltac:(lia))
      as (pre & rest & -> & Hfp & Hip & Htp).
    destruct (Head pre rest Hn Hfp Hip ltac:(lia)) as (s' & E & A).
    exists s'. split; [exact E|]. rewrite (adv_clock _ _ _ _ _ A). lia.
  - intros polls resp s' Hn Hnone E.
    destruct (complete_return prompt a s resp s' E)
      as (post' & polls' & Hn' & _ & _ & ev & Hin & Hterm & _).
    rewrite Hn in Hn'. injection Hn' as <- <-.
    rewrite (Hnone ev Hin) in Hterm. discriminate.
Qed.

(** ** The exceptions a caller sees *)



(** ** Concrete runs *)

Lemma accepted_default lat : accepted default_args (Ex.post_ok lat) (JStr "t1").
Proof.
  split; [exists MEDIUM; reflexivity|].
  eexists. split; reflexivity.
Defined.

Lemma accepted_short lat : accepted Ex.short (Ex.post_ok lat) (JStr "t1").
Proof.
  split; [exists MEDIUM; reflexivity|].
  eexists. split; reflexivity.
Defined.

(** The example of the specification: the first poll returns
    ["succeeded"] with the body [{"metadata": {"status": "succeeded"},
    "output": "hi"}]. *)
Lemma C1_witness :
  exists resp s',
    complete "hello" default_args (Ex.machine [Ex.post_ok 3; Ex.done 2])
    = (Return resp, s') /\
    status resp = "succeeded" /\
    result resp = Ex.hi /\
    network (world s') = [] /\
    gets_made (calls (world s')) = 1%nat /\
    (succeeded resp = true <-> "succeeded" = "succeeded").
Proof.
  apply (C1_terminal_status_returns "hello" default_args
           (Ex.machine [Ex.post_ok 3; Ex.done 2]) (Ex.post_ok 3) (JStr "t1")
           [] (Ex.done 2) [] Ex.hi "succeeded").
  - reflexivity.
  - apply accepted_default.
  - reflexivity.
  - reflexivity.
  - exists [("metadata", JObj [("status", JStr "succeeded")]); ("output", JStr "hi")],
      [("status", JStr "succeeded")].
    repeat split.
  - left. reflexivity.
Defined.

(** Five failed polls in a row with the default arguments. *)
Lemma C2_witness :
  exists s',
    complete "hello" default_args
      (Ex.machine [Ex.post_ok 3; Ex.failing 10; Ex.failing 10; Ex.failing 10;
                   Ex.failing 10; Ex.failing 10; Ex.done 1])
    = (Raise (mkExn ForgeError "Polling failed after 5 retries"), s') /\
    network (world s') = [Ex.done 1] /\
    gets_made (calls (world s')) = 5%nat.
Proof.
  destruct (C2_retry_budget "hello" default_args
              (Ex.machine [Ex.post_ok 3; Ex.failing 10; Ex.failing 10;
                           Ex.failing 10; Ex.failing 10; Ex.failing 10; Ex.done 1])
              (Ex.post_ok 3) (JStr "t1") (accepted_default 3))
    as (_ & _ & _ & _ & _ & All & _).
  apply (All [Ex.failing 10; Ex.failing 10; Ex.failing 10; Ex.failing 10]
             (Ex.failing 10) [Ex.done 1]).
  - reflexivity.
  - reflexivity.
  - reflexivity.
  - reflexivity.
Defined.

(** C2 as stated fails: with [timeout=3] and the maximum at its default
    of 5, every poll fails in transport, at once; each is followed by the
    sleep of 1, and after the third the loop test finds the timeout
    reached.  [ForgeTimeoutError] is raised after 3 polls; the counter
    never reaches the maximum and [ForgeError] is never raised. *)
Lemma C2_counterexample :
  let polls := [Ex.failing 0; Ex.failing 0; Ex.failing 0; Ex.failing 0;
                Ex.failing 0] in
  let r := complete "hello" Ex.brief (Ex.machine (Ex.post_ok 0 :: polls)) in
  forallb transport_failure polls = true /\
  max_retries Ex.brief = 5 /\
  fst r = Raise (mkExn ForgeTimeoutError "Completion timed out after 3 seconds") /\
  gets_made (calls (world (snd r))) = 3%nat /\
  network (world (snd r)) = [Ex.failing 0; Ex.failing 0] /\
  fst r <> Raise (retries_exn Ex.brief).
Proof.
  cbv zeta. repeat split. vm_compute. discriminate.
Qed.

(** The example of the specification: [timeout=10, poll_interval=5] and
    every poll returns ["running"]. *)
Lemma C3_witness :
  exists s',
    complete "hello" Ex.short
      (Ex.machine [Ex.post_ok 3; Ex.running 0; Ex.running 0; Ex.running 0])
    = (Raise (mkExn ForgeTimeoutError "Completion timed out after 10 seconds"), s') /\
    advanced (Ex.machine [Ex.post_ok 3; Ex.running 0; Ex.running 0; Ex.running 0])
      s' 13 2 [Ex.running 0].
Proof.
  destruct (C3_timeout "hello" Ex.short
              (Ex.machine [Ex.post_ok 3; Ex.running 0; Ex.running 0; Ex.running 0])
              (Ex.post_ok 3) (JStr "t1") (accepted_short 3))
    as (_ & Head & _).
  apply (Head [Ex.running 0; Ex.running 0] [Ex.running 0]).
  - reflexivity.
  - reflexivity.
  - reflexivity.
  - vm_compute. discriminate.
Defined.

(** C3 as stated fails: with [timeout=10, max_retries=1], a poll that
    fails after 10 time-units leaves the run with no terminal status and
    the elapsed time at the timeout, and what is raised is [ForgeError]
    for the retries, not [ForgeTimeoutError]. *)
Lemma C3_counterexample :
  let s := Ex.machine [Ex.post_ok 3; Ex.failing 10] in
  let r := complete "hello" Ex.strict s in
  (forall ev, In ev [Ex.failing 10] -> terminal ev = None) /\
  fst r = Raise (mkExn ForgeError "Polling failed after 1 retries") /\
  timeout Ex.strict <= clock (world (snd r)) - (clock (world s) + 3) /\
  isinstance (mkExn ForgeError "Polling failed after 1 retries") ForgeTimeoutError
  = false.
Proof.
  cbv zeta. split; [|split; [|split]].
  - intros ev [<- | []]. reflexivity.
  - reflexivity.
  - vm_compute. discriminate.
  - reflexivity.
Qed.



Lemma C5_witness :
  exists post polls,
    network (world Ex5.start) = post :: polls /\
    completion_time Ex5.resp =
      clock (world Ex5.final) - (clock (world Ex5.start) + Z.of_N (latency post)) /\
    completion_time Ex5.resp =
      (clock (world Ex5.final) - clock (world Ex5.start)) - Z.of_N (latency post).
Proof.
  apply (C5_completion_time_from_loop_start "hello" default_args
           Ex5.start Ex5.resp Ex5.final).
  vm_compute. reflexivity.
Defined.

(** C5 as stated fails: the submission request starts at 100 and takes
    3, the terminal poll reply arrives at 105, and the response says 2,
    not 5. *)
Lemma C5_counterexample :
  complete "hello" default_args Ex5.start = (Return Ex5.resp, Ex5.final) /\
  clock (world Ex5.start) = 100 /\
  clock (world Ex5.final) = 105 /\
  completion_time Ex5.resp = 2 /\
  completion_time Ex5.resp <> clock (world Ex5.final) - clock (world Ex5.start).
Proof.
  repeat split; try reflexivity. vm_compute. discriminate.
Qed.



(** No key given and none in the environment. *)
Lemma C7_witness :
  ForgeClient_init None default_base_url (mkWorld [] 100 [Ex.post_ok 3] [] [])
  = (Raise auth_exn, mkWorld [] 100 [Ex.post_ok 3] [] []) /\
  ForgeClient_init (Some "k") default_base_url (mkWorld [] 100 [Ex.post_ok 3] [] [])
  = (Return (client_of "k" default_base_url), mkWorld [] 100 [Ex.post_ok 3] [] []).
Proof.
  destruct (C7_construction_credential default_base_url
              (mkWorld [] 100 [Ex.post_ok 3] [] []))
    as (NoKey & Key & _).
  split.
  - apply NoKey. reflexivity.
  - apply Key. discriminate.
Defined.



(** [FORGE_API_KEY] is set to the empty string. *)
Lemma C9_witness :
  ForgeClient_init (Some "") default_base_url
    (mkWorld [("FORGE_API_KEY", "")] 100 [] [] [])
  = (Raise auth_exn, mkWorld [("FORGE_API_KEY", "")] 100 [] [] []) /\
  ForgeClient_init None default_base_url
    (mkWorld [("FORGE_API_KEY", "")] 100 [] [] [])
  = (Raise auth_exn, mkWorld [("FORGE_API_KEY", "")] 100 [] [] []).
Proof.
  apply (C9_empty_credential_is_absent default_base_url
           (mkWorld [("FORGE_API_KEY", "")] 100 [] [] [])).
  right. reflexivity.
Defined.

(** C9 as stated fails: with a key in the environment, an empty
    [api_key] argument does not raise; the key of the environment is
    taken and the client is returned. *)
Lemma C9_counterexample :
  let w := mkWorld [("FORGE_API_KEY", "k")] 100 [] [] [] in
  ForgeClient_init (Some "") default_base_url w
  = (Return (client_of "k" default_base_url), w).
Proof. reflexivity. Qed.

(** * Further properties of the code *)

(** ** The response and its predicates *)

Lemma terminal_status_some st t :
  terminal_status st = Some t -> st = JStr t /\ In t terminal_statuses.
Proof.
  destruct st as [| | |u| |]; try discriminate. cbn.
  destruct (String.eqb_spec u "succeeded") as [->|_].
  { intros [= <-]. split; [reflexivity | now left]. }
  destruct (String.eqb_spec u "failed") as [->|_].
  { intros [= <-]. split; [reflexivity | right; now left]. }
  destruct (String.eqb_spec u "cancelled") as [->|_].
  { intros [= <-]. split; [reflexivity | right; right; now left]. }
  discriminate.
Qed.

(** X1. Every response [complete] returns carries one of the three
    terminal statuses, read from [metadata.status] of the body it carries
    as [result]; of the two predicates [succeeded] and [failed] exactly
    one holds, [failed] for ["failed"] and ["cancelled"]. *)
Theorem X1_response_predicates (prompt : string) (a : CompleteArgs)
    (s : Machine) (resp : ForgeResponse) (s' : Machine) :
  complete prompt a s = (Return resp, s') ->
  In (status resp) terminal_statuses /\
  metadata_status (result resp) = Some (JStr (status resp)) /\
  succeeded resp = negb (failed resp) /\
  (failed resp = true <-> status resp = "failed" \/ status resp = "cancelled").
Proof.
  intros E.
  destruct (complete_return prompt a s resp s' E)
    as (post & polls & _ & _ & _ & ev & _ & Ht & Hr).
  unfold terminal in Ht. rewrite Hr in Ht.
  destruct (metadata_status (result resp)) as [st|]; [|discriminate].
  destruct (terminal_status_some st (status resp) Ht) as [-> Hin].
  split; [exact Hin|]. split; [reflexivity|].
  unfold succeeded, failed.
  destruct Hin as [<- | [<- | [<- | []]]]; cbn; (split; [reflexivity|]);
    split; auto; intros H; try discriminate; destruct H; discriminate.
Qed.

(** ** The submission *)

(** X2. A submission that fails in transport is not retried: [complete]
    raises [ForgeError] with the cause in its message after the one POST;
    no poll is made and the rest of the script is left as it is. *)
Theorem X2_submission_failure_not_retried (prompt : string) (a : CompleteArgs)
    (s : Machine) (sp : ReasoningSpeed) (ev : NetEvent) (rest : list NetEvent)
    (reason : string) :
  speed_ok a sp ->
  network (world s) = ev :: rest ->
  reply ev = NetFail reason ->
  exists s',
    complete prompt a s =
    (Raise (mkExn ForgeError ("Failed to start completion: " ++ reason)), s') /\
    calls (world s') = submit_request prompt sp a s :: calls (world s) /\
    network (world s') = rest /\
    clock (world s') = clock (world s) + Z.of_N (latency ev).
Proof.
  intros Hsp Hn Hr. exists (submitted prompt sp a ev rest s).
  rewrite (complete_submitted prompt a s sp ev rest Hsp Hn), Hr.
  destruct s as [c w]. repeat split.
Qed.

(** X3. A submission answered 2xx with a body that has no [task_id] is
    not reported as a [ForgeError]: the subscript of line 130 raises
    [KeyError] on a dict without the key, [TypeError] on a body that is
    no dict, the [except] clause lets it pass, and it reaches the caller
    after the one POST, no poll made. *)
Theorem X3_submission_without_task_id (prompt : string) (a : CompleteArgs)
    (s : Machine) (sp : ReasoningSpeed) (ev : NetEvent) (rest : list NetEvent)
    (body : json) :
  speed_ok a sp ->
  network (world s) = ev :: rest ->
  reply ev = NetOk body ->
  (forall d, body = JObj d -> dict_find "task_id" d = None) ->
  exists e s',
    complete prompt a s = (Raise e, s') /\
    exn_cls e = (match body with JObj _ => KeyError | _ => TypeError end) /\
    isinstance e ForgeError = false /\
    calls (world s') = submit_request prompt sp a s :: calls (world s) /\
    network (world s') = rest.
Proof.
  intros Hsp Hn Hr Hno.
  rewrite (complete_submitted prompt a s sp ev rest Hsp Hn), Hr.
  destruct body as [| | | | |d]; cbn [item];
    try (eexists _, _; split; [reflexivity|]; destruct s; repeat split).
  rewrite (Hno d eq_refl).
  eexists _, _; split; [reflexivity|]; destruct s; repeat split.
Qed.

(** X4. A speed argument whose text, lowercased, is none of ["fast"],
    ["medium"], ["slow"] makes [complete] raise [ValueError], which is no
    [ForgeError], at once: nothing is logged, no request is made, the
    machine is as it was. *)
Theorem X4_invalid_speed_rejected_first (prompt : string) (a : CompleteArgs)
    (s : Machine) :
  (forall sp, lower (speed_text (reasoning_speed a)) <> speed_value sp) ->
  exists e,
    complete prompt a s = (Raise e, s) /\
    exn_cls e = ValueError /\
    isinstance e ForgeError = false.
Proof.
  intros H. eexists. split; [now apply complete_invalid_speed|].
  split; reflexivity.
Qed.

(** ** The speed argument *)

Lemma poll_once_args url tid start_time a b r s :
  poll_interval a = poll_interval b ->
  max_retries a = max_retries b ->
  poll_once url tid start_time a r s = poll_once url tid start_time b r s.
Proof.
  intros Hp Hm. unfold poll_once. rewrite Hp, Hm. reflexivity.
Qed.

(** The loop reads of the arguments the timeout, the poll interval and
    the maximum of retries, nothing else. *)
Lemma poll_loop_args url tid start_time a b :
  timeout a = timeout b ->
  poll_interval a = poll_interval b ->
  max_retries a = max_retries b ->
  forall fuel r s,
    poll_loop fuel url tid start_time a r s
    = poll_loop fuel url tid start_time b r s.
Proof.
  intros Ht Hp Hm. induction fuel as [|fuel IH]; intros r s; [reflexivity|].
  rewrite !loop_S. unfold bind, timeout_exn. rewrite Ht.
  destruct (lift time_time s) as [[now|e|] s1]; try reflexivity.
  destruct (now - start_time <? timeout b); [|reflexivity].
  rewrite (poll_once_args url tid start_time a b r s1 Hp Hm).
  destruct (poll_once url tid start_time b r s1) as [[[resp|r']|e|] s2];
    try reflexivity.
  apply IH.
Qed.

Lemma lower_speed_value sp : lower (speed_value sp) = speed_value sp.
Proof. destruct sp; reflexivity. Qed.

(** X5. The speed argument is matched without regard to case, and a
    string is as good as the member it names: a call with a string whose
    lowercase is the value of a member is the same call, in every world,
    as the one with that member. *)
Theorem X5_speed_case_insensitive (prompt : string) (a : CompleteArgs)
    (s : Machine) (x : string) (sp : ReasoningSpeed) :
  lower x = speed_value sp ->
  complete prompt (with_speed (SpeedStr x) a) s
  = complete prompt (with_speed (SpeedMember sp) a) s.
Proof.
  intros Hx.
  assert (H1 : speed_ok (with_speed (SpeedStr x) a) sp) by exact Hx.
  assert (H2 : speed_ok (with_speed (SpeedMember sp) a) sp)
    by apply lower_speed_value.
  destruct (network (world s)) as [|ev polls] eqn:Hn.
  { now rewrite (complete_submit_pending prompt _ s sp H1 Hn),
      (complete_submit_pending prompt _ s sp H2 Hn). }
  rewrite (complete_submitted prompt _ s sp ev polls H1 Hn),
    (complete_submitted prompt _ s sp ev polls H2 Hn).
  destruct (reply ev) as [reason|body]; [reflexivity|].
  destruct (item body "task_id") as [e|tid]; [reflexivity|].
  now apply poll_loop_args.
Qed.

(** ** The requests on record *)

Section Requests.
Variables (url : string) (tid : json) (start_time : Z) (a : CompleteArgs).

(** A pass makes at most one request, the GET of the poll. *)
Lemma pass_calls s r k s' :
  pass url tid start_time a s r k s' ->
  calls (world s') = calls (world s) \/
  calls (world s') = HttpGet url tid (headers (self s)) 10 :: calls (world s).
Proof.
  destruct 1; destruct s as [c w]; cbn; auto.
Qed.

Lemma loop_calls fuel : forall r s o s',
  poll_loop fuel url tid start_time a r s = (o, s') ->
  exists gets,
    calls (world s') = (gets ++ calls (world s))%list /\
    Forall (fun c => c = HttpGet url tid (headers (self s)) 10) gets.
Proof.
  induction fuel as [|fuel IH]; intros r s o s' E.
  - cbn in E. injection E as _ <-. exists []. split; [reflexivity | constructor].
  - destruct (loop_pass url tid start_time a r s) as (k & s1 & Hp & E1).
    rewrite E1 in E.
    pose proof (pass_self _ _ _ _ _ _ _ _ Hp) as Hs.
    assert (H1 : exists g1,
               calls (world s1) = (g1 ++ calls (world s))%list /\
               Forall (fun c => c = HttpGet url tid (headers (self s)) 10) g1).
    { destruct (pass_calls _ _ _ _ Hp) as [H|H].
      - exists []. split; [exact H | constructor].
      - exists [HttpGet url tid (headers (self s)) 10].
        split; [exact H | repeat constructor]. }
    destruct k as [o1|r1].
    + injection E as _ <-. exact H1.
    + destruct H1 as (g1 & Hc1 & Hf1).
      destruct (IH _ _ _ _ E) as (g2 & Hc2 & Hf2).
      exists (g2 ++ g1)%list. split.
      * rewrite Hc2, Hc1. now rewrite app_assoc.
      * apply Forall_app. split; [|exact Hf1]. now rewrite Hs in Hf2.
Qed.
End Requests.

Lemma complete_calls (prompt : string) (a : CompleteArgs)
    (s : Machine) (sp : ReasoningSpeed) (o : outcome ForgeResponse)
    (s' : Machine) :
  speed_ok a sp ->
  complete prompt a s = (o, s') ->
  exists gets tid,
    calls (world s') =
      (gets ++ submit_request prompt sp a s :: calls (world s))%list /\
    Forall (fun c => c = poll_request s tid) gets /\
    (gets <> [] ->
     exists post polls,
       network (world s) = post :: polls /\ accepted a post tid).
Proof.
  intros Hsp.
  destruct (network (world s)) as [|post polls] eqn:Hn.
  { rewrite (complete_submit_pending prompt a s sp Hsp Hn).
    intros [= _ <-]. exists [], JNull. split; [|split].
    - destruct s; reflexivity.
    - constructor.
    - intros H; now destruct H. }
  rewrite (complete_submitted prompt a s sp post polls Hsp Hn).
  destruct (reply post) as [reason|body] eqn:Hr.
  { intros [= _ <-]. exists [], JNull. split; [|split].
    - destruct s; reflexivity.
    - constructor.
    - intros H; now destruct H. }
  destruct body as [| | | | |d];
    try (intros [= _ <-]; exists [], JNull; split; [|split];
         [destruct s; reflexivity | constructor | intros H; now destruct H]).
  cbn [item]. destruct (dict_find "task_id" d) as [tid|] eqn:Hd.
  2:{ intros [= _ <-]. exists [], JNull. split; [|split].
      - destruct s; reflexivity.
      - constructor.
      - intros H; now destruct H. }
  intros E. apply loop_calls in E. destruct E as (gets & Hc & Hf).
  exists gets, tid. split; [|split].
  - rewrite Hc. destruct s; reflexivity.
  - exact Hf.
  - intros _. exists post, polls. split; [reflexivity|].
    split; [now exists sp|]. exists d. auto.
Qed.

(** X6. The requests of one call with a valid speed: first the one POST
    to [<base_url>/asyncplanner/completions], carrying the prompt, the
    value of the speed member and the [track] flag; then only GETs, all
    for the task id that the reply to the POST gave, under that URL.
    Every request carries the headers of the client and the network
    timeout 10. *)
Theorem X6_requests_of_a_call (prompt : string) (a : CompleteArgs)
    (s : Machine) (sp : ReasoningSpeed) (o : outcome ForgeResponse)
    (s' : Machine) :
  speed_ok a sp ->
  complete prompt a s = (o, s') ->
  exists gets tid,
    calls (world s') =
      (gets ++ submit_request prompt sp a s :: calls (world s))%list /\
    Forall (fun c => c = poll_request s tid) gets /\
    (gets <> [] ->
     exists post polls,
       network (world s) = post :: polls /\ accepted a post tid).
Proof. apply complete_calls. Qed.

(** ** The client that construction gives *)

Lemma append_nil_r (s : string) : s ++ "" = s.
Proof. induction s as [|c s IH]; cbn; [reflexivity | now rewrite IH]. Qed.

Lemma append_assoc (x y z : string) : (x ++ y) ++ z = x ++ (y ++ z).
Proof. induction x as [|c x IH]; cbn; [reflexivity | now rewrite IH]. Qed.

Lemma string_rev_app (x y : string) :
  string_rev (x ++ y) = string_rev y ++ string_rev x.
Proof.
  induction x as [|c x IH]; cbn.
  - now rewrite append_nil_r.
  - now rewrite IH, append_assoc.
Qed.

Lemma string_rev_involutive (x : string) : string_rev (string_rev x) = x.
Proof.
  induction x as [|c x IH]; cbn; [reflexivity|].
  now rewrite string_rev_app, IH.
Qed.

Lemma slashes_snoc n : slashes n ++ "/" = String "/"%char (slashes n).
Proof. induction n as [|n IH]; cbn; [reflexivity | now rewrite IH]. Qed.

Lemma string_rev_slashes n : string_rev (slashes n) = slashes n.
Proof.
  induction n as [|n IH]; cbn; [reflexivity|]. now rewrite IH, slashes_snoc.
Qed.

Lemma lstrip_slash_spec (t : string) :
  (exists n, t = slashes n ++ lstrip_slash t) /\
  first_char (lstrip_slash t) <> Some "/"%char.
Proof.
  induction t as [|c t [[n IH] IH2]]; cbn.
  - split; [now exists 0%nat | discriminate].
  - destruct (Ascii.eqb_spec c "/"%char) as [->|Hc].
    + cbn. split; [|exact IH2]. exists (S n). cbn. now rewrite <- IH.
    + assert (E : lstrip_slash (String c t) = String c t).
      { destruct c as [[] [] [] [] [] [] [] []]; try reflexivity.
        now destruct Hc. }
      cbn in E. rewrite E. split; [now exists 0%nat|].
      cbn. intros [= H]. now destruct Hc.
Qed.

Lemma last_char_snoc (x : string) (c : ascii) :
  last_char (x ++ String c "") = Some c.
Proof.
  induction x as [|d x IH]; cbn; [reflexivity|].
  rewrite IH. destruct (x ++ String c ""); [discriminate | reflexivity].
Qed.

Lemma last_char_rev (u : string) : last_char (string_rev u) = first_char u.
Proof. destruct u as [|c u]; cbn; [reflexivity | apply last_char_snoc]. Qed.

(** [rstrip('/')] takes off trailing slashes, all of them and nothing
    else. *)
Lemma rstrip_slash_spec (url : string) :
  (exists n, url = rstrip_slash url ++ slashes n) /\
  last_char (rstrip_slash url) <> Some "/"%char.
Proof.
  unfold rstrip_slash.
  destruct (lstrip_slash_spec (string_rev url)) as [[n Hn] Hf]. split.
  - exists n. rewrite <- (string_rev_involutive url) at 1.
    rewrite Hn at 1. now rewrite string_rev_app, string_rev_slashes.
  - now rewrite last_char_rev.
Qed.

(** X7. The client that [__init__] returns: its key is not empty, and is
    the argument when that is given and not empty, the value of
    [FORGE_API_KEY] otherwise; its headers are [Authorization: Bearer
    <key>] and [Content-Type: application/json]; its base URL is the
    argument without its trailing slashes, all of them, so that no
    [//] comes about where a path is appended. *)
Theorem X7_constructed_client (key : option string) (url : string)
    (w : World) (c : ForgeClient) (w' : World) :
  ForgeClient_init key url w = (Return c, w') ->
  api_key c <> "" /\
  (forall k, key = Some k -> k <> "" -> api_key c = k) /\
  (key = None \/ key = Some "" ->
   assoc "FORGE_API_KEY" (environ w) = Some (api_key c)) /\
  headers c = [("Authorization", "Bearer " ++ api_key c);
               ("Content-Type", "application/json")] /\
  (exists n, url = base_url c ++ slashes n) /\
  last_char (base_url c) <> Some "/"%char.
Proof.
  intros E.
  assert (H : exists k, c = client_of k url /\ k <> "" /\
                        (forall k', key = Some k' -> k' <> "" -> k = k') /\
                        (key = None \/ key = Some "" ->
                         assoc "FORGE_API_KEY" (environ w) = Some k)).
  { destruct key as [k|].
    - destruct (String.eqb_spec k "") as [->|Hk].
      + change (ForgeClient_init (Some "") url w)
          with (ForgeClient_init None url w) in E.
        rewrite init_env in E.
        destruct (assoc "FORGE_API_KEY" (environ w)) as [k'|]; [|discriminate].
        destruct (String.eqb_spec k' ""); [discriminate|].
        injection E as <- _. exists k'. repeat split; auto.
        intros k2 [= <-] Hk2. now destruct Hk2.
      + rewrite (init_key k url w Hk) in E. injection E as <- _.
        exists k. repeat split; auto.
        * now intros k2 [= <-] _.
        * intros [H|[= H]]; [discriminate | now destruct Hk].
    - rewrite init_env in E.
      destruct (assoc "FORGE_API_KEY" (environ w)) as [k'|]; [|discriminate].
      destruct (String.eqb_spec k' ""); [discriminate|].
      injection E as <- _. exists k'. repeat split; auto. discriminate. }
  destruct H as (k & -> & Hk & Harg & Henv). cbn.
  destruct (rstrip_slash_spec url) as [Hn Hl].
  repeat split; auto.
Qed.

(** ** Time *)

Lemma item_error_class x k e :
  item x k = inl e -> exn_cls e = KeyError \/ exn_cls e = TypeError.
Proof.
  destruct x as [| | | | |d]; cbn; try (intros [= <-]; auto).
  destruct (dict_find k d); [discriminate|]. intros [= <-]. auto.
Qed.

Section Timing.
Variables (url : string) (tid : json) (start_time : Z) (a : CompleteArgs).

(** The clock does not go back in a pass. *)
Lemma pass_clock s r k s' :
  pass url tid start_time a s r k s' -> clock (world s) <= clock (world s').
Proof.
  destruct 1; destruct s as [c w]; cbn; lia.
Qed.

(** What a pass that ends the loop did: nothing, at the timeout; or one
    poll, begun before it. *)
Lemma pass_stop s r o s' :
  pass url tid start_time a s r (inl o) s' ->
  (s' = s /\ o = Raise (timeout_exn a) /\
   timeout a <= clock (world s) - start_time) \/
  (clock (world s) - start_time < timeout a /\
   gets_made (calls (world s')) = S (gets_made (calls (world s))) /\
   o <> Raise (timeout_exn a)).
Proof.
  intros H. remember (inl o) as k eqn:Ek.
  destruct H; try discriminate; injection Ek as <-;
    try (right; split; [assumption|]; split;
         [destruct s; reflexivity | discriminate]).
  left. auto.
Qed.

(** A pass that falls through made one poll. *)
Lemma pass_again_gets s r r' s' :
  pass url tid start_time a s r (inr r') s' ->
  clock (world s) - start_time < timeout a /\
  gets_made (calls (world s')) = S (gets_made (calls (world s))).
Proof.
  intros H. remember (inr r') as k eqn:Ek.
  destruct H; try discriminate; (split; [assumption | destruct s; reflexivity]).
Qed.

(** The loop raises its timeout error only at or after the timeout. *)
Lemma loop_timeout_late fuel : forall r s e s',
  poll_loop fuel url tid start_time a r s = (Raise e, s') ->
  exn_cls e = ForgeTimeoutError ->
  e = timeout_exn a /\ timeout a <= clock (world s') - start_time.
Proof.
  induction fuel as [|fuel IH]; intros r s e s' E Hc; [discriminate|].
  destruct (loop_pass url tid start_time a r s) as (k & s1 & Hp & E1).
  rewrite E1 in E. destruct k as [o1|r1].
  - injection E as -> ->. remember (inl (Raise e)) as k eqn:Ek.
    destruct Hp; try discriminate; injection Ek as <-; try discriminate Hc.
    split; [reflexivity | assumption].
  - now apply (IH _ _ _ _ E).
Qed.

(** A response comes from a poll begun before the timeout, and its time
    is not less than the time already elapsed. *)
Lemma loop_return_in_time fuel : forall r s resp s',
  poll_loop fuel url tid start_time a r s = (Return resp, s') ->
  clock (world s) - start_time <= completion_time resp /\
  exists ev,
    In ev (network (world s)) /\
    reply ev = NetOk (result resp) /\
    completion_time resp - Z.of_N (latency ev) < timeout a.
Proof.
  induction fuel as [|fuel IH]; intros r s resp s' E; [discriminate|].
  destruct (loop_pass url tid start_time a r s) as (k & s1 & Hp & E1).
  rewrite E1 in E. destruct k as [o1|r1].
  - injection E as -> ->. remember (inl (Return resp)) as k eqn:Ek.
    destruct Hp as [ | | s r ev rest st body Ht Hn Hs Hr | | | | | ];
      try discriminate; injection Ek as <-. cbn [completion_time result].
    split; [lia|]. exists ev. rewrite Hn. repeat split; [now left | exact Hr | lia].
  - pose proof (pass_clock _ _ _ _ Hp) as Hc.
    destruct (pass_again _ _ _ _ _ _ _ _ Hp) as (ev0 & rest & Hn & Hn' & _).
    destruct (IH _ _ _ _ E) as (Hlo & ev & Hin & Hev).
    split; [lia|]. exists ev. rewrite Hn. rewrite Hn' in Hin.
    split; [now right | exact Hev].
Qed.

Hypothesis interval_pos : 1 <= poll_interval a.

Lemma pass_time_pos ev : quiet ev = true -> 1 <= pass_time a ev.
Proof. intros _. unfold pass_time. destruct (transport_failure ev); lia. Qed.

(** With a poll interval of at least 1 every pass that falls through
    takes at least 1, so the polls of a loop are no more than the time
    left to the timeout. *)
Lemma loop_gets_bound fuel : forall r s o s',
  poll_loop fuel url tid start_time a r s = (o, s') ->
  Z.of_nat (gets_made (calls (world s')))
  <= Z.of_nat (gets_made (calls (world s)))
     + Z.max 0 (timeout a - (clock (world s) - start_time)).
Proof.
  induction fuel as [|fuel IH]; intros r s o s' E.
  - cbn in E. injection E as _ <-. lia.
  - destruct (loop_pass url tid start_time a r s) as (k & s1 & Hp & E1).
    rewrite E1 in E. destruct k as [o1|r1].
    + injection E as -> ->.
      destruct (pass_stop _ _ _ _ Hp) as [(-> & _ & _) | (Ht & Hg & _)]; lia.
    + destruct (pass_again_gets _ _ _ _ Hp) as (Ht & Hg).
      destruct (pass_again _ _ _ _ _ _ _ _ Hp) as (ev & rest & _ & _ & Hq & _ & Hc).
      pose proof (pass_time_pos ev Hq).
      specialize (IH _ _ _ _ E). lia.
Qed.

(** ... and a script with at least that many replies is not used up. *)
Lemma loop_not_pending fuel : forall r s o s',
  (List.length (network (world s)) < fuel)%nat ->
  Z.max 0 (timeout a - (clock (world s) - start_time))
  <= Z.of_nat (List.length (network (world s))) ->
  poll_loop fuel url tid start_time a r s = (o, s') ->
  o <> Pending.
Proof.
  induction fuel as [|fuel IH]; intros r s o s' Hl Hb E; [lia|].
  destruct (loop_pass url tid start_time a r s) as (k & s1 & Hp & E1).
  rewrite E1 in E. destruct k as [o1|r1].
  - injection E as -> ->. remember (inl o) as k eqn:Ek.
    destruct Hp as [ | s r Ht Hn | | | | | | ]; try discriminate;
      injection Ek as <-; try discriminate.
    rewrite Hn in Hb. cbn in Hb. lia.
  - destruct (pass_again_gets _ _ _ _ Hp) as (Ht & _).
    destruct (pass_again _ _ _ _ _ _ _ _ Hp) as (ev & rest & Hn & Hn' & Hq & _ & Hc).
    pose proof (pass_time_pos ev Hq).
    apply (IH _ _ _ _) in E; [exact E | |].
    + rewrite Hn in Hl. rewrite Hn'. cbn [List.length] in Hl. lia.
    + rewrite Hn in Hb. rewrite Hn'. cbn [List.length] in Hb. lia.
Qed.
End Timing.

(** X8. [complete] never gives up early: when it raises
    [ForgeTimeoutError], the submission had been accepted (a valid speed,
    a reply to the POST with a [task_id]) and the time since the reply to
    it arrived is the timeout or more; the message is the one naming the
    timeout. *)
Theorem X8_timeout_not_early (prompt : string) (a : CompleteArgs)
    (s : Machine) (e : exn) (s' : Machine) :
  complete prompt a s = (Raise e, s') ->
  exn_cls e = ForgeTimeoutError ->
  exists post polls tid,
    network (world s) = post :: polls /\
    accepted a post tid /\
    timeout a <= clock (world s') - (clock (world s) + Z.of_N (latency post)) /\
    exn_msg e =
      "Completion timed out after " ++ str_of_Z (timeout a) ++ " seconds".
Proof.
  destruct (speed_dec a) as [[sp Hsp]|Hsp].
  2:{ rewrite complete_invalid_speed by exact Hsp. intros [= <- _]. discriminate. }
  destruct (network (world s)) as [|post polls] eqn:Hn.
  { rewrite (complete_submit_pending prompt a s sp Hsp Hn). discriminate. }
  rewrite (complete_submitted prompt a s sp post polls Hsp Hn).
  destruct (reply post) as [reason|body] eqn:Hr; [intros [= <- _]; discriminate|].
  destruct (item body "task_id") as [e'|tid] eqn:Hi.
  { intros [= <- _] Hc.
    destruct (item_error_class _ _ _ Hi) as [H|H]; rewrite H in Hc; discriminate. }
  intros E Hc. destruct (loop_timeout_late _ _ _ _ _ _ _ _ _ E Hc) as [-> Ht].
  exists post, polls, tid. split; [reflexivity|]. split; [|split].
  - split; [now exists sp|].
    destruct body as [| | | | |d]; try discriminate.
    exists d. split; [exact Hr|]. cbn in Hi.
    destruct (dict_find "task_id" d); [now injection Hi as -> | discriminate].
  - exact Ht.
  - reflexivity.
Qed.

(** X9. The time in a returned response is not negative, and the poll
    that brought the terminal status was begun before the timeout: the
    time exceeds the timeout by less than the latency of that one poll. *)
Theorem X9_response_time_bounds (prompt : string) (a : CompleteArgs)
    (s : Machine) (resp : ForgeResponse) (s' : Machine) :
  complete prompt a s = (Return resp, s') ->
  0 <= completion_time resp /\
  exists ev,
    In ev (tl (network (world s))) /\
    reply ev = NetOk (result resp) /\
    completion_time resp < timeout a + Z.of_N (latency ev).
Proof.
  destruct (speed_dec a) as [[sp Hsp]|Hsp].
  2:{ rewrite complete_invalid_speed by exact Hsp. discriminate. }
  destruct (network (world s)) as [|post polls] eqn:Hn.
  { rewrite (complete_submit_pending prompt a s sp Hsp Hn). discriminate. }
  rewrite (complete_submitted prompt a s sp post polls Hsp Hn).
  destruct (reply post) as [reason|body]; [discriminate|].
  destruct (item body "task_id") as [e'|tid]; [discriminate|].
  intros E. apply loop_return_in_time in E.
  destruct E as (Hlo & ev & Hin & Hr & Ht).
  split.
  - replace (clock (world (submitted prompt sp a post polls s)))
      with (clock (world s) + Z.of_N (latency post)) in Hlo
      by (destruct s; reflexivity).
    lia.
  - exists ev. cbn [tl]. split; [|split; [exact Hr | lia]].
    destruct s; exact Hin.
Qed.

(** X10. With a poll interval of at least 1 the loop ends: one call makes
    no more polls than the timeout has units (none for a timeout that is
    not positive), and it is not left waiting on a script that has a
    reply for each of them. *)
Theorem X10_polls_bounded_by_timeout (prompt : string) (a : CompleteArgs)
    (s : Machine) (o : outcome ForgeResponse) (s' : Machine) :
  1 <= poll_interval a ->
  complete prompt a s = (o, s') ->
  Z.of_nat (gets_made (calls (world s')))
  <= Z.of_nat (gets_made (calls (world s))) + Z.max 0 (timeout a) /\
  (forall post polls,
     network (world s) = post :: polls ->
     timeout a <= Z.of_nat (List.length polls) ->
     o <> Pending).
Proof.
  intros Hi.
  destruct (speed_dec a) as [[sp Hsp]|Hsp].
  2:{ rewrite complete_invalid_speed by exact Hsp. intros [= <- <-].
      split; [lia | discriminate]. }
  destruct (network (world s)) as [|post polls] eqn:Hn.
  { rewrite (complete_submit_pending prompt a s sp Hsp Hn). intros [= <- <-].
    split; [destruct s; cbn; lia | discriminate]. }
  rewrite (complete_submitted prompt a s sp post polls Hsp Hn).
  destruct (reply post) as [reason|body].
  { intros [= <- <-]. split; [destruct s; cbn; lia | discriminate]. }
  destruct (item body "task_id") as [e'|tid].
  { intros [= <- <-]. split; [destruct s; cbn; lia | discriminate]. }
  intros E. set (s0 := submitted prompt sp a post polls s) in *.
  assert (Hc : clock (world s0) = clock (world s) + Z.of_N (latency post))
    by (destruct s; reflexivity).
  assert (Hg : gets_made (calls (world s0)) = gets_made (calls (world s)))
    by (destruct s; reflexivity).
  assert (Hn0 : network (world s0) = polls) by (destruct s; reflexivity).
  split.
  - pose proof (loop_gets_bound _ _ _ _ Hi _ _ _ _ _ E) as H.
    rewrite Hc, Hg in H. rewrite Z.sub_diag, Z.sub_0_r in H. exact H.
  - intros post' polls' [= <- <-] Hlen.
    apply (loop_not_pending _ _ _ _ Hi) in E; [exact E | |].
    + rewrite Hn0. lia.
    + rewrite Hc, Hn0, Z.sub_diag, Z.sub_0_r. lia.
Qed.

(** X11. A timeout that is not positive leaves no time for a poll, but
    the task is submitted all the same: one POST, then
    [ForgeTimeoutError] at once, whatever the script would have
    answered. *)
Theorem X11_nonpositive_timeout (prompt : string) (a : CompleteArgs)
    (s : Machine) (post : NetEvent) (tid : json) (rest : list NetEvent) :
  network (world s) = post :: rest ->
  accepted a post tid ->
  timeout a <= 0 ->
  exists sp s',
    complete prompt a s = (Raise (timeout_exn a), s') /\
    calls (world s') = submit_request prompt sp a s :: calls (world s) /\
    network (world s') = rest.
Proof.
  intros Hn [[sp Hsp] (d & Hr & Hd)] Ht.
  exists sp, (submitted prompt sp a post rest s).
  rewrite (complete_enters_loop prompt a s sp post rest d tid) by assumption.
  split; [|destruct s; split; reflexivity].
  apply loop_timeout.
  replace (clock (world (submitted prompt sp a post rest s)))
    with (clock (world s) + Z.of_N (latency post)) by (destruct s; reflexivity).
  lia.
Qed.

(** X12. A maximum of retries of 1, or less, tolerates no failure: the
    first poll that fails in transport raises [ForgeError], no sleep and
    no second poll. *)
Theorem X12_no_retry_budget (prompt : string) (a : CompleteArgs)
    (s : Machine) (post : NetEvent) (tid : json) (ev : NetEvent)
    (rest : list NetEvent) :
  network (world s) = post :: ev :: rest ->
  accepted a post tid ->
  0 < timeout a ->
  transport_failure ev = true ->
  max_retries a <= 1 ->
  exists s',
    complete prompt a s = (Raise (retries_exn a), s') /\
    gets_made (calls (world s')) = S (gets_made (calls (world s))) /\
    network (world s') = rest /\
    clock (world s') =
      clock (world s) + Z.of_N (latency post) + Z.of_N (latency ev).
Proof.
  intros Hn Hacc Ht Hf Hm.
  destruct (complete_polling prompt a s post tid [] (ev :: rest) Hn Hacc
              eq_refl eq_refl) as (s1 & E & A).
  rewrite E.
  rewrite (loop_failure_abort (completion_url s) tid _ a _ _ s1 ev rest).
  - pose proof (advanced_trans _ _ _ _ _ _ _ _ _ A
                  (advanced_polled (completion_url s) tid ev rest s1)) as A'.
    eexists. split; [reflexivity|]. split; [|split].
    + rewrite (adv_gets _ _ _ _ _ A'). cbn. lia.
    + exact (adv_network _ _ _ _ _ A').
    + rewrite (adv_clock _ _ _ _ _ A'). cbn [script_time]. lia.
  - rewrite (adv_clock _ _ _ _ _ A). cbn [script_time]. lia.
  - exact (adv_network _ _ _ _ _ A).
  - exact Hf.
  - cbn [counter_after]. lia.
Qed.

(** ** Concrete runs for the further properties *)

Lemma X1_witness :
  In (status Ex5.resp) terminal_statuses /\
  metadata_status (result Ex5.resp) = Some (JStr (status Ex5.resp)) /\
  succeeded Ex5.resp = negb (failed Ex5.resp) /\
  (failed Ex5.resp = true <->
   status Ex5.resp = "failed" \/ status Ex5.resp = "cancelled").
Proof.
  apply (X1_response_predicates "hello" default_args Ex5.start Ex5.resp Ex5.final).
  vm_compute. reflexivity.
Defined.

Lemma X2_witness :
  exists s',
    complete "hello" default_args (Ex.machine [Ex.failing 4; Ex.done 1])
    = (Raise (mkExn ForgeError "Failed to start completion: timed out"), s') /\
    calls (world s') =
      [submit_request "hello" MEDIUM default_args
         (Ex.machine [Ex.failing 4; Ex.done 1])] /\
    network (world s') = [Ex.done 1] /\
    clock (world s') = 104.
Proof.
  apply (X2_submission_failure_not_retried "hello" default_args
           (Ex.machine [Ex.failing 4; Ex.done 1]) MEDIUM (Ex.failing 4)
           [Ex.done 1] "timed out"); reflexivity.
Defined.

Lemma X3_witness :
  exists e s',
    complete "hello" default_args (Ex.machine [Ex.bare 1; Ex.done 1])
    = (Raise e, s') /\
    exn_cls e = KeyError /\
    isinstance e ForgeError = false /\
    calls (world s') =
      [submit_request "hello" MEDIUM default_args
         (Ex.machine [Ex.bare 1; Ex.done 1])] /\
    network (world s') = [Ex.done 1].
Proof.
  apply (X3_submission_without_task_id "hello" default_args
           (Ex.machine [Ex.bare 1; Ex.done 1]) MEDIUM (Ex.bare 1)
           [Ex.done 1] (JObj [])); try reflexivity.
  intros d [= <-]. reflexivity.
Defined.

Lemma X4_witness :
  exists e,
    complete "hello" Ex.turbo (Ex.machine [Ex.post_ok 3; Ex.done 2])
    = (Raise e, Ex.machine [Ex.post_ok 3; Ex.done 2]) /\
    exn_cls e = ValueError /\
    isinstance e ForgeError = false.
Proof.
  apply (X4_invalid_speed_rejected_first "hello" Ex.turbo
           (Ex.machine [Ex.post_ok 3; Ex.done 2])).
  intros [| |]; discriminate.
Defined.

Lemma X5_witness :
  complete "hello" (with_speed (SpeedStr "FaSt") default_args)
    (Ex.machine [Ex.post_ok 3; Ex.done 2])
  = complete "hello" (with_speed (SpeedMember FAST) default_args)
      (Ex.machine [Ex.post_ok 3; Ex.done 2]).
Proof.
  apply (X5_speed_case_insensitive "hello" default_args
           (Ex.machine [Ex.post_ok 3; Ex.done 2]) "FaSt" FAST).
  reflexivity.
Defined.

Lemma X6_witness :
  exists gets tid,
    calls (world Ex5.final) =
      (gets ++ submit_request "hello" MEDIUM default_args Ex5.start
            :: calls (world Ex5.start))%list /\
    Forall (fun c => c = poll_request Ex5.start tid) gets /\
    (gets <> [] ->
     exists post polls,
       network (world Ex5.start) = post :: polls /\
       accepted default_args post tid).
Proof.
  apply (X6_requests_of_a_call "hello" default_args Ex5.start MEDIUM
           (Return Ex5.resp) Ex5.final).
  - reflexivity.
  - vm_compute. reflexivity.
Defined.

Lemma X7_witness :
  let c := client_of "k" "https://x/v1//" in
  api_key c <> "" /\
  (forall k, Some "k" = Some k -> k <> "" -> api_key c = k) /\
  (Some "k" = None \/ Some "k" = Some "" ->
   assoc "FORGE_API_KEY" (environ (mkWorld [] 100 [] [] [])) = Some (api_key c)) /\
  headers c = [("Authorization", "Bearer " ++ api_key c);
               ("Content-Type", "application/json")] /\
  (exists n, "https://x/v1//" = base_url c ++ slashes n) /\
  last_char (base_url c) <> Some "/"%char.
Proof.
  apply (X7_constructed_client (Some "k") "https://x/v1//"
           (mkWorld [] 100 [] [] []) (client_of "k" "https://x/v1//")
           (mkWorld [] 100 [] [] [])).
  reflexivity.
Defined.

Lemma X8_witness :
  exists post polls tid,
    network (world ExMore.slow_start) = post :: polls /\
    accepted Ex.short post tid /\
    timeout Ex.short <=
      clock (world ExMore.slow_final)
      - (clock (world ExMore.slow_start) + Z.of_N (latency post)) /\
    exn_msg (timeout_exn Ex.short) =
      "Completion timed out after " ++ str_of_Z (timeout Ex.short) ++ " seconds".
Proof.
  apply (X8_timeout_not_early "hello" Ex.short ExMore.slow_start
           (timeout_exn Ex.short) ExMore.slow_final).
  - vm_compute. reflexivity.
  - reflexivity.
Defined.

Lemma X9_witness :
  0 <= completion_time Ex5.resp /\
  exists ev,
    In ev (tl (network (world Ex5.start))) /\
    reply ev = NetOk (result Ex5.resp) /\
    completion_time Ex5.resp < timeout default_args + Z.of_N (latency ev).
Proof.
  apply (X9_response_time_bounds "hello" default_args Ex5.start Ex5.resp Ex5.final).
  vm_compute. reflexivity.
Defined.

Lemma X10_witness :
  Z.of_nat (gets_made (calls (world ExMore.slow_final)))
  <= Z.of_nat (gets_made (calls (world ExMore.slow_start)))
     + Z.max 0 (timeout Ex.short) /\
  (forall post polls,
     network (world ExMore.slow_start) = post :: polls ->
     timeout Ex.short <= Z.of_nat (List.length polls) ->
     Raise (timeout_exn Ex.short) <> @Pending ForgeResponse).
Proof.
  apply (X10_polls_bounded_by_timeout "hello" Ex.short ExMore.slow_start
           (Raise (timeout_exn Ex.short)) ExMore.slow_final).
  - vm_compute. discriminate.
  - vm_compute. reflexivity.
Defined.

Lemma X11_witness :
  exists sp s',
    complete "hello" ExMore.zero (Ex.machine [Ex.post_ok 3; Ex.done 2])
    = (Raise (timeout_exn ExMore.zero), s') /\
    calls (world s') =
      [submit_request "hello" sp ExMore.zero
         (Ex.machine [Ex.post_ok 3; Ex.done 2])] /\
    network (world s') = [Ex.done 2].
Proof.
  apply (X11_nonpositive_timeout "hello" ExMore.zero
           (Ex.machine [Ex.post_ok 3; Ex.done 2]) (Ex.post_ok 3) (JStr "t1")
           [Ex.done 2]).
  - reflexivity.
  - split; [exists MEDIUM; reflexivity|]. eexists. split; reflexivity.
  - vm_compute. discriminate.
Defined.

Lemma X12_witness :
  exists s',
    complete "hello" Ex.strict
      (Ex.machine [Ex.post_ok 3; Ex.failing 10; Ex.done 2])
    = (Raise (retries_exn Ex.strict), s') /\
    gets_made (calls (world s')) = 1%nat /\
    network (world s') = [Ex.done 2] /\
    clock (world s') = 100 + 3 + 10.
Proof.
  apply (X12_no_retry_budget "hello" Ex.strict
           (Ex.machine [Ex.post_ok 3; Ex.failing 10; Ex.done 2])
           (Ex.post_ok 3) (JStr "t1") (Ex.failing 10) [Ex.done 2]).
  - reflexivity.
  - split; [exists MEDIUM; reflexivity|]. eexists. split; reflexivity.
  - vm_compute. reflexivity.
  - reflexivity.
  - vm_compute. discriminate.
Defined.


(** ** The log and the task id *)

Section Logs.
Variables (url : string) (tid : json) (start_time : Z) (a : CompleteArgs).

Lemma pass_logs s r k s' :
  pass url tid start_time a s r k s' ->
  logs (world s') = logs (world s) \/
  exists l, status_line l /\ logs (world s') = l :: logs (world s).
Proof.
  destruct 1; destruct s as [c w]; cbn; auto;
    right; eexists; (split; [eexists _, _; split; [reflexivity | eassumption]
                            | reflexivity]).
Qed.

Lemma loop_logs fuel : forall r s o s',
  poll_loop fuel url tid start_time a r s = (o, s') ->
  exists lines,
    logs (world s') = (lines ++ logs (world s))%list /\
    Forall status_line lines.
Proof.
  induction fuel as [|fuel IH]; intros r s o s' E.
  - cbn in E. injection E as _ <-. exists []. split; [reflexivity | constructor].
  - destruct (loop_pass url tid start_time a r s) as (k & s1 & Hp & E1).
    rewrite E1 in E.
    assert (H1 : exists l1,
               logs (world s1) = (l1 ++ logs (world s))%list /\
               Forall status_line l1).
    { destruct (pass_logs _ _ _ _ Hp) as [H|(l & Hl & H)].
      - exists []. split; [exact H | constructor].
      - exists [l]. split; [exact H | repeat constructor; exact Hl]. }
    destruct k as [o1|r1].
    + injection E as _ <-. exact H1.
    + destruct H1 as (l1 & Hc1 & Hf1).
      destruct (IH _ _ _ _ E) as (l2 & Hc2 & Hf2).
      exists (l2 ++ l1)%list. split.
      * rewrite Hc2, Hc1. now rewrite app_assoc.
      * apply Forall_app. now split.
Qed.
End Logs.

(** X17. What a call with a valid speed logs: first the prompt, in full,
    before the submission; after it nothing but status lines of polls,
    each with a status that is not terminal.  A terminal status is never
    logged, nor is a failure. *)
Theorem X17_log_of_a_call (prompt : string) (a : CompleteArgs)
    (s : Machine) (sp : ReasoningSpeed) (o : outcome ForgeResponse)
    (s' : Machine) :
  speed_ok a sp ->
  complete prompt a s = (o, s') ->
  exists lines,
    logs (world s') = (lines ++ LogStarting prompt :: logs (world s))%list /\
    Forall status_line lines.
Proof.
  intros Hsp.
  destruct (network (world s)) as [|post polls] eqn:Hn.
  { rewrite (complete_submit_pending prompt a s sp Hsp Hn).
    intros [= _ <-]. exists []. split; [destruct s; reflexivity | constructor]. }
  rewrite (complete_submitted prompt a s sp post polls Hsp Hn).
  destruct (reply post) as [reason|body].
  { intros [= _ <-]. exists []. split; [destruct s; reflexivity | constructor]. }
  destruct (item body "task_id") as [e|tid].
  { intros [= _ <-]. exists []. split; [destruct s; reflexivity | constructor]. }
  intros E. apply loop_logs in E. destruct E as (lines & Hl & Hf).
  exists lines. split; [|exact Hf]. rewrite Hl. destruct s; reflexivity.
Qed.

(** X18. The task id of a returned response is the [task_id] of the
    reply to the submission, as it came (it need not be a string); the
    bodies of the polls have no say in it. *)
Theorem X18_task_id_of_the_submission (prompt : string) (a : CompleteArgs)
    (s : Machine) (resp : ForgeResponse) (s' : Machine) :
  complete prompt a s = (Return resp, s') ->
  exists post polls d,
    network (world s) = post :: polls /\
    reply post = NetOk (JObj d) /\
    dict_find "task_id" d = Some (task_id resp).
Proof.
  intros E.
  destruct (complete_return prompt a s resp s' E)
    as (post & polls & Hn & [_ (d & Hr & Hd)] & _).
  now exists post, polls, d.
Qed.

Lemma X17_witness :
  exists lines,
    logs (world ExMore.slow_final) =
      (lines ++ LogStarting "hello" :: logs (world ExMore.slow_start))%list /\
    Forall status_line lines.
Proof.
  apply (X17_log_of_a_call "hello" Ex.short ExMore.slow_start MEDIUM
           (Raise (timeout_exn Ex.short)) ExMore.slow_final).
  - reflexivity.
  - vm_compute. reflexivity.
Defined.

Lemma X18_witness :
  exists post polls d,
    network (world Ex5.start) = post :: polls /\
    reply post = NetOk (JObj d) /\
    dict_find "task_id" d = Some (task_id Ex5.resp).
Proof.
  apply (X18_task_id_of_the_submission "hello" default_args Ex5.start
           Ex5.resp Ex5.final).
  vm_compute. reflexivity.
Defined.
